(** * A shallow embedding of [http_server.py]

    The server is a single-file Python program: a request parser, a URI
    resolver reading from the directory [webroot], four response builders
    and a sequential accept loop.  This development embeds those functions
    as Rocq functions and states properties of them.

    Conventions of the embedding:
    - a Python [str] is a list of Unicode code points ([list N]);
    - a Python [bytes] object is a list of 8-bit characters ([list ascii]);
    - a function that may raise returns a [result], whose [Raise] carries
      the exception class;
    - the builtins and library functions the program calls ([str.split],
      [str.splitlines], [str.strip], [bytes.join], the UTF-8 codec, text-mode
      [open], [os.path.join]) are written out in module [Py];
    - the file system, [mimetypes.guess_type] and the shell behind
      [subprocess.check_output] form the record [platform];
    - writes to [log_buffer] do not influence any returned value or raised
      exception and are left out. *)

From Stdlib Require Import NArith Ascii String List Lia.
From stdpp Require Import base decidable option list countable gmap.

Local Open Scope N_scope.

(** ** Python values and exceptions *)

Definition str := list N.
Definition bytes := list ascii.

(** ASCII literals: [U "GET"] is the str ['GET'], [B "GET"] the bytes [b'GET']. *)
Definition B (s : string) : bytes := list_ascii_of_string s.
Definition U (s : string) : str := map N_of_ascii (list_ascii_of_string s).

Inductive exn : Set :=
  | IndexError
  | ValueError
  | NameError
  | TypeError
  | AttributeError
  | UnicodeDecodeError
  | UnicodeEncodeError
  | CalledProcessError.

Inductive result (A : Type) : Type :=
  | Ok (a : A)
  | Raise (e : exn).
Arguments Ok {A} a.
Arguments Raise {A} e.

#[global] Instance exn_eq_dec : EqDecision exn.
Proof. solve_decision. Defined.

#[global] Instance result_ret : MRet result := fun A a => Ok a.
#[global] Instance result_bind : MBind result := fun A B f m =>
  match m with
  | Ok a => f a
  | Raise e => Raise e
  end.
#[global] Instance result_fmap : FMap result := fun A B f m =>
  match m with
  | Ok a => Ok (f a)
  | Raise e => Raise e
  end.

(** [try: body / except e: handler] for a body without local state. *)
Definition try_except {A} (body : result A) (e : exn) (handler : result A) : result A :=
  match body with
  | Ok a => Ok a
  | Raise e' => if decide (e' = e) then handler else Raise e'
  end.

(** The values the program moves around untyped: [None], [False], a str or
    a bytes object. *)
Inductive pyval : Type :=
  | PyNone
  | PyFalse
  | PyStr (s : str)
  | PyBytes (bs : bytes).

(** Truth value of [if v:]. *)
Definition truthy (v : pyval) : bool :=
  match v with
  | PyNone | PyFalse => false
  | PyStr s => bool_decide (s ≠ [])
  | PyBytes bs => bool_decide (bs ≠ [])
  end.

Module Py.

(** *** Sequences *)

(** [s.startswith(prefix)] *)
Fixpoint startswith {A} `{EqDecision A} (s prefix : list A) {struct prefix} : bool :=
  match prefix with
  | [] => true
  | p :: prefix' =>
      match s with
      | c :: s' => bool_decide (c = p) && startswith s' prefix'
      | [] => false
      end
  end.

(** [sep.join(items)] *)
Fixpoint join {A} (sep : list A) (items : list (list A)) : list A :=
  match items with
  | [] => []
  | x :: rest =>
      match rest with
      | [] => x
      | _ :: _ => x ++ sep ++ join sep rest
      end
  end.

(** [s.split(sep)] for a non-empty [sep]: cut at every occurrence of
    [sep], scanning from the left.  [skip] counts the characters of an
    occurrence already matched that are still to be passed over. *)
Fixpoint split_from {A} `{EqDecision A} (sep : list A) (skip : nat) (s : list A)
  : list (list A) :=
  match s with
  | [] => [[]]
  | c :: rest =>
      match skip with
      | S k => split_from sep k rest
      | O =>
          if startswith s sep
          then [] :: split_from sep (pred (length sep)) rest
          else match split_from sep 0 rest with
               | piece :: pieces => (c :: piece) :: pieces
               | [] => [[c]]
               end
      end
  end.

Definition split {A} `{EqDecision A} (s sep : list A) : list (list A) :=
  split_from sep 0 s.

(** [s.lstrip(chars)], [s.rstrip(chars)], [s.strip(chars)] *)
Fixpoint lstrip {A} `{EqDecision A} (s chars : list A) : list A :=
  match s with
  | [] => []
  | c :: rest => if bool_decide (c ∈ chars) then lstrip rest chars else s
  end.

Definition rstrip {A} `{EqDecision A} (s chars : list A) : list A :=
  reverse (lstrip (reverse s) chars).

Definition strip {A} `{EqDecision A} (s chars : list A) : list A :=
  rstrip (lstrip s chars) chars.

(** Tuple unpacking [a, b = xs] and [a, b, c = xs]. *)
Definition unpack2 {A} (xs : list A) : result (A * A) :=
  match xs with
  | [a; b] => Ok (a, b)
  | _ => Raise ValueError
  end.

Definition unpack3 {A} (xs : list A) : result (A * A * A) :=
  match xs with
  | [a; b; c] => Ok (a, b, c)
  | _ => Raise ValueError
  end.

(** [xs[i]] *)
Definition index {A} (xs : list A) (i : nat) : result A :=
  match xs !! i with
  | Some x => Ok x
  | None => Raise IndexError
  end.

(** *** Characters of a str *)

Definition LF : N := 10.
Definition CR : N := 13.

(** The line boundaries of [str.splitlines]. *)
Definition is_linebreak (c : N) : bool :=
  bool_decide (c ∈ [0x0A; 0x0B; 0x0C; 0x0D; 0x1C; 0x1D; 0x1E; 0x85; 0x2028; 0x2029]).

(** The characters [str.split()] treats as white space. *)
Definition is_space (c : N) : bool :=
  (0x09 <=? c) && (c <=? 0x0D)
  || (0x1C <=? c) && (c <=? 0x20)
  || bool_decide (c ∈ [0x85; 0xA0; 0x1680; 0x2028; 0x2029; 0x202F; 0x205F; 0x3000])
  || (0x2000 <=? c) && (c <=? 0x200A).

(** [s.splitlines()]: the lines of [s] without their terminators; a CR LF
    pair is one terminator; no empty last line after a final terminator. *)
Fixpoint splitlines (s : str) : list str :=
  match s with
  | [] => []
  | c :: rest =>
      if is_linebreak c then
        [] :: match rest with
              | c' :: rest' =>
                  if bool_decide (c = CR) && bool_decide (c' = LF)
                  then splitlines rest'
                  else splitlines rest
              | [] => []
              end
      else
        match splitlines rest with
        | line :: lines => (c :: line) :: lines
        | [] => [[c]]
        end
  end.

(** [s.split()]: the maximal runs of non-space characters. *)
Fixpoint split_ws (s : str) : list str :=
  match s with
  | [] => []
  | c :: rest =>
      if is_space c then split_ws rest
      else
        match rest with
        | [] => [[c]]
        | c' :: _ =>
            if is_space c' then [c] :: split_ws rest
            else match split_ws rest with
                 | tok :: toks => (c :: tok) :: toks
                 | [] => [[c]]
                 end
        end
  end.

(** *** The UTF-8 codec

    [bs.decode('utf8')] and [s.encode('utf8')] with the default strict
    error handling: overlong forms, surrogates and values above U+10FFFF
    are refused. *)

Definition byte_val (b : ascii) : N := N_of_ascii b.

(** The payload of a continuation byte [10xxxxxx]. *)
Definition continuation (b : ascii) : option N :=
  let n := byte_val b in
  if (0x80 <=? n) && (n <? 0xC0) then Some (n - 0x80) else None.

Definition is_surrogate (c : N) : bool := (0xD800 <=? c) && (c <? 0xE000).

Fixpoint utf8_decode (bs : bytes) : result str :=
  match bs with
  | [] => Ok []
  | b0 :: r0 =>
      let n0 := byte_val b0 in
      if n0 <? 0x80 then cons n0 <$> utf8_decode r0
      else if n0 <? 0xC0 then Raise UnicodeDecodeError
      else if n0 <? 0xE0 then
        match r0 with
        | b1 :: r1 =>
            match continuation b1 with
            | Some c1 =>
                let c := (n0 - 0xC0) * 0x40 + c1 in
                if c <? 0x80 then Raise UnicodeDecodeError
                else cons c <$> utf8_decode r1
            | None => Raise UnicodeDecodeError
            end
        | [] => Raise UnicodeDecodeError
        end
      else if n0 <? 0xF0 then
        match r0 with
        | b1 :: (b2 :: r2) =>
            match continuation b1, continuation b2 with
            | Some c1, Some c2 =>
                let c := (n0 - 0xE0) * 0x1000 + c1 * 0x40 + c2 in
                if (c <? 0x800) || is_surrogate c then Raise UnicodeDecodeError
                else cons c <$> utf8_decode r2
            | _, _ => Raise UnicodeDecodeError
            end
        | _ => Raise UnicodeDecodeError
        end
      else if n0 <? 0xF8 then
        match r0 with
        | b1 :: (b2 :: (b3 :: r3)) =>
            match continuation b1, continuation b2, continuation b3 with
            | Some c1, Some c2, Some c3 =>
                let c := (n0 - 0xF0) * 0x40000 + c1 * 0x1000 + c2 * 0x40 + c3 in
                if (c <? 0x10000) || (0x10FFFF <? c) then Raise UnicodeDecodeError
                else cons c <$> utf8_decode r3
            | _, _, _ => Raise UnicodeDecodeError
            end
        | _ => Raise UnicodeDecodeError
        end
      else Raise UnicodeDecodeError
  end.

Definition byte_of (n : N) : ascii := ascii_of_N n.

Definition encode_char (c : N) : result bytes :=
  if c <? 0x80 then Ok [byte_of c]
  else if c <? 0x800 then
    Ok [byte_of (0xC0 + c / 0x40); byte_of (0x80 + c mod 0x40)]
  else if c <? 0x10000 then
    if is_surrogate c then Raise UnicodeEncodeError
    else Ok [byte_of (0xE0 + c / 0x1000);
             byte_of (0x80 + (c / 0x40) mod 0x40);
             byte_of (0x80 + c mod 0x40)]
  else if c <? 0x110000 then
    Ok [byte_of (0xF0 + c / 0x40000);
        byte_of (0x80 + (c / 0x1000) mod 0x40);
        byte_of (0x80 + (c / 0x40) mod 0x40);
        byte_of (0x80 + c mod 0x40)]
  else Raise UnicodeEncodeError.

Fixpoint utf8_encode (s : str) : result bytes :=
  match s with
  | [] => Ok []
  | c :: rest =>
      bs ← encode_char c;
      bs' ← utf8_encode rest;
      Ok (bs ++ bs')
  end.

(** *** Text-mode files

    [open(path, 'r').read()] decodes the file (the locale's encoding is
    taken to be UTF-8) and, with the default [newline=None], replaces every
    CR LF and every remaining CR by LF. *)

Fixpoint universal_newlines (s : str) : str :=
  match s with
  | [] => []
  | c :: rest =>
      if bool_decide (c = CR) then
        LF :: match rest with
              | c' :: rest' =>
                  if bool_decide (c' = LF) then universal_newlines rest'
                  else universal_newlines rest
              | [] => []
              end
      else c :: universal_newlines rest
  end.

Definition read_text (data : bytes) : result str :=
  universal_newlines <$> utf8_decode data.

(** *** Paths

    [os.path.join(a, b)] of [posixpath]. *)

Definition SLASH : N := 0x2F.

Definition endswith_char (s : str) (c : N) : bool :=
  match reverse s with
  | c' :: _ => bool_decide (c' = c)
  | [] => false
  end.

Definition path_join (a b : str) : str :=
  if startswith b [SLASH] then b
  else if bool_decide (a = []) || endswith_char a SLASH then a ++ b
  else a ++ [SLASH] ++ b.

End Py.

(** ** The platform the server runs on *)

(** What [os.path.exists], [os.path.isdir] and [open] see at a path. *)
Inductive fs_entry : Type :=
  | Directory
  | RegularFile (data : bytes).

Record platform : Type := {
  (** the file system, looked up by the path string handed to the OS *)
  lookup_path : str -> option fs_entry;
  (** [mimetypes.guess_type(path)[0]] *)
  guess_type : str -> option str;
  (** [subprocess.check_output([cmd], shell=True)] *)
  check_output : str -> result bytes
}.

(** ** Response builders *)

Definition CRLF : bytes := ["013"; "010"]%char.

Definition bytes_of (v : pyval) : result bytes :=
  match v with
  | PyBytes bs => Ok bs
  | _ => Raise TypeError
  end.

(** [response_ok(body, mimetype)]; the server always passes both arguments.
    The list is built first ([b"Content-Type: " + mimetype] needs bytes),
    then joined (every item must be bytes). *)
Definition response_ok (body mimetype : pyval) : result bytes :=
  mt ← bytes_of mimetype;
  bd ← bytes_of body;
  Ok (Py.join CRLF [B "HTTP/1.1 200 OK"; B "Content-Type: " ++ mt; B ""; bd]).

Definition response_method_not_allowed : bytes :=
  Py.join CRLF [B "HTTP/1.1 405 Method Not Allowed"].

Definition response_not_found : bytes :=
  Py.join CRLF [B "HTTP/1.1 404 Not Found"].

Definition not_implemented : bytes :=
  Py.join CRLF [B "HTTP/1.1 501 Not Implemented"].

(** ** The request parser *)

(** The local variables of [parse_request] that outlive its [try] block. *)
Record locals : Type := Locals {
  method : pyval;
  uri : pyval;
  version : pyval;
  headers : gmap str str
}.

(** The [for line in request_lines[1:]] loop.  It returns the locals as they
    are when the loop ends or raises. *)
Fixpoint header_loop (lines : list str) (st : locals) : locals * option exn :=
  match lines with
  | [] => (st, None)
  | line :: rest =>
      if bool_decide (line ≠ []) then
        match Py.unpack2 (Py.split line (U ": ")) with
        | Ok (key, value) =>
            header_loop rest
              (Locals (method st) (uri st) (version st) (<[key := value]> (headers st)))
        | Raise e => (st, Some e)
        end
      else header_loop rest st
  end.

(** The body of the [try] block. *)
Definition try_block (request_lines : list str) (st : locals) : locals * option exn :=
  match Py.index request_lines 0 with
  | Raise e => (st, Some e)
  | Ok first =>
      match Py.unpack3 (Py.split_ws first) with
      | Raise e => (st, Some e)
      | Ok (m, u, v) =>
          (* method, uri, version = ... ; headers = {} *)
          header_loop (drop 1 request_lines) (Locals (PyStr m) (PyStr u) (PyStr v) ∅)
      end
  end.

Definition parse_request (request : str)
  : result (pyval * pyval * pyval * gmap str str) :=
  let st := Locals PyFalse PyFalse PyFalse ∅ in
  let request_lines := Py.splitlines request in
  match try_block request_lines st with
  | (st, None) => Ok (method st, uri st, version st, headers st)
  | (st, Some e) =>
      if decide (e = IndexError)
      then Ok (method st, uri st, version st, headers st)
      else Raise e
  end.

(** ** The URI resolver *)

Definition WEBROOT : str := U "webroot".

Definition effective_path (uri : str) : str :=
  Py.path_join WEBROOT (Py.strip uri (U "/")).

(** ** Connections *)

(** A connection: what the successive [conn.recv(1024)] calls return (each
    at most 1024 bytes; an exhausted queue is a closed peer, where [recv]
    returns [b""]), what [conn.sendall] has written, and whether
    [conn.close] has run. *)
Record connection : Type := Connection {
  recv_queue : list bytes;
  sent : bytes;
  closed : bool
}.

(** The [while True] loop around [conn.recv]. *)
Fixpoint receive (queue : list bytes) (request : str) : result str * list bytes :=
  match queue with
  | [] => (Ok request, [])
  | data :: queue' =>
      match Py.utf8_decode data with
      | Raise e => (Raise e, queue')
      | Ok text =>
          let request := request ++ text in
          if (length data <? 1024)%nat then (Ok request, queue')
          else receive queue' request
      end
  end.

Section Server.

Variable P : platform.

(** [os.path.exists] holds where the lookup finds an entry, [os.path.isdir]
    where that entry is a directory; [open(...).read()] gives the data of
    a regular file, which is taken to be readable. *)
Definition resolve_uri (uri : str) : result (pyval * pyval) :=
  let effective_uri := effective_path uri in
  match lookup_path P effective_uri with
  | Some Directory =>
      mime_type ← Py.utf8_encode (U "text/plain");
      content ← check_output P (U "ls -l " ++ effective_uri);
      Ok (PyBytes content, PyBytes mime_type)
  | Some (RegularFile data) =>
      match guess_type P effective_uri with
      | Some mime_type =>
          if bool_decide (mime_type ≠ []) then
            '(base_type, sub_type) ← Py.unpack2 (Py.split mime_type (U "/"));
            content ←
              (if bool_decide (base_type = U "text")
               then text ← Py.read_text data; Py.utf8_encode text
               else Ok data);
            mime_type ← Py.utf8_encode mime_type;
            Ok (PyBytes content, PyBytes mime_type)
          else Ok (PyFalse, PyStr mime_type)
      | None => Ok (PyFalse, PyNone)
      end
  | None => Raise NameError
  end.

(** ** The connection handler and the accept loop *)

(** From the parsed request to the response bytes. *)
Definition respond (request : str) : result bytes :=
  '(method, uri, version, headers) ← parse_request request;
  if truthy method then
    try_except
      (uri ← (match uri with PyStr s => Ok s | _ => Raise AttributeError end);
       '(content, mime_type) ← resolve_uri uri;
       if truthy mime_type then response_ok content mime_type
       else Ok not_implemented)
      NameError
      (Ok response_not_found)
  else Ok response_method_not_allowed.

(** The inner [try ... finally: conn.close()]: the connection after it,
    and the exception that leaves it, if any. *)
Definition handle_connection (conn : connection) : connection * option exn :=
  let '(request, queue) := receive (recv_queue conn) [] in
  match request ≫= respond with
  | Ok response => (Connection queue (sent conn ++ response) true, None)
  | Raise e => (Connection queue (sent conn) true, Some e)
  end.

(** The accept loop of [server] over the connections that arrive, in order
    (the socket set-up before the loop is left out).  When no connection is
    left the loop is interrupted in [accept] ([KeyboardInterrupt]) and
    [server] returns; any other exception leaves [server].  The result lists
    the connections handled so far. *)
Fixpoint server (incoming : list connection) : list connection * option exn :=
  match incoming with
  | [] => ([], None)
  | conn :: later =>
      match handle_connection conn with
      | (conn', None) =>
          let '(served, outcome) := server later in (conn' :: served, outcome)
      | (conn', Some e) => ([conn'], Some e)
      end
  end.

End Server.

(** ** Notions the properties below are stated with *)

(** The first line of a request, as [parse_request] takes it. *)
Definition first_line (request : str) : str :=
  default [] (head (Py.splitlines request)).

(** The body of a response: the bytes after the first blank line. *)
Fixpoint body_of (response : bytes) : option bytes :=
  match response with
  | [] => None
  | _ :: rest =>
      if Py.startswith response (CRLF ++ CRLF) then Some (drop 4 response)
      else body_of rest
  end.

(** The segments a relative path denotes once [.] and [..] are resolved
    (as [os.path.normpath] does); [stack] holds them innermost first. *)
Definition norm_step (stack : list str) (segment : str) : list str :=
  if bool_decide (segment = []) || bool_decide (segment = U ".") then stack
  else if bool_decide (segment = U "..") then
    match stack with
    | [] => [segment]
    | top :: below => if bool_decide (top = U "..") then segment :: stack else below
    end
  else segment :: stack.

Definition normpath (path : str) : list str :=
  reverse (foldl norm_step [] (Py.split path (U "/"))).

(** A path stays under the root when its first resolved segment is the root. *)
Definition under_webroot (path : str) : bool :=
  match normpath path with
  | top :: _ => bool_decide (top = WEBROOT)
  | [] => false
  end.

(** ** A small platform to run the server on

    The working directory holds [secret.txt] next to [webroot]; the OS
    resolves [.] and [..] when it looks a path up. *)

Definition endswith (s suffix : str) : bool :=
  Py.startswith (reverse s) (reverse suffix).

Definition demo_tree : list (list str * fs_entry) :=
  [ ([U "webroot"], Directory);
    ([U "webroot"; U "a.html"], RegularFile (B "<html></html>"));
    ([U "webroot"; U "notes.txt"], RegularFile (B "one" ++ CRLF ++ B "two"));
    ([U "webroot"; U "plain.txt"], RegularFile (B "one two"));
    ([U "webroot"; U "latin1.txt"], RegularFile (B "caf" ++ [ascii_of_N 0xE9]));
    ([U "webroot"; U "Makefile"], RegularFile (B "all:"));
    ([U "webroot"; U "images"], Directory);
    ([U "webroot"; U "images"; U "sample_1.png"],
       RegularFile (map ascii_of_N [0x89; 0x50; 0x4E; 0x47; 0x0D; 0x0A; 0x1A; 0x0A]));
    ([U "secret.txt"], RegularFile (B "top secret")) ].

Fixpoint find_entry (segments : list str) (tree : list (list str * fs_entry))
  : option fs_entry :=
  match tree with
  | [] => None
  | (name, entry) :: rest =>
      if bool_decide (name = segments) then Some entry else find_entry segments rest
  end.

Definition demo_lookup (path : str) : option fs_entry :=
  find_entry (normpath path) demo_tree.

Definition demo_guess (path : str) : option str :=
  if endswith path (U ".html") then Some (U "text/html")
  else if endswith path (U ".txt") then Some (U "text/plain")
  else if endswith path (U ".png") then Some (U "image/png")
  else None.

Definition demo : platform :=
  {| lookup_path := demo_lookup;
     guess_type := demo_guess;
     check_output := fun _ => Ok (B "total 0") |}.

(** Requests used below. *)
Definition crlf : str := [Py.CR; Py.LF].

Definition request_root : bytes :=
  B "GET / HTTP/1.1" ++ CRLF ++ B "Host: localhost:10000" ++ CRLF ++ CRLF.

Definition request_bare_header : bytes :=
  B "GET / HTTP/1.1" ++ CRLF ++ B "Host" ++ CRLF ++ CRLF.

Definition fresh (chunks : list bytes) : connection := Connection chunks [] false.

(** The same platform with a listing command that fails. *)
Definition demo_failing_ls : platform :=
  {| lookup_path := demo_lookup;
     guess_type := demo_guess;
     check_output := fun _ => Raise CalledProcessError |}.

(** Whether bytes hold a carriage return. *)
Definition has_CR (bs : bytes) : bool := bool_decide ("013"%char ∈ bs).

(** A token of a request line: not empty, no white space. *)
Definition token (s : str) : bool :=
  bool_decide (s ≠ []) && forallb (fun c => negb (Py.is_space c)) s.

(** A text that holds no line boundary. *)
Definition one_line (s : str) : bool :=
  forallb (fun c => negb (Py.is_linebreak c)) s.

(** A request as a client writes it: the request line, one line per header
    and a blank line, each ended by CR LF. *)
Definition header_line (h : str * str) : str := h.1 ++ U ": " ++ h.2.

Definition request_text (m u v : str) (hs : list (str * str)) : str :=
  (m ++ U " " ++ u ++ U " " ++ v) ++ crlf
  ++ concat (map (fun h => header_line h ++ crlf) hs) ++ crlf.

(** A header line the parser takes: blank, or cut in two by [": "]. *)
Definition header_line_ok (line : str) : Prop :=
  line = [] ∨ length (Py.split line (U ": ")) = 2%nat.

(** The 200 response on the wire. *)
Definition ok_response (content mt : bytes) : bytes :=
  B "HTTP/1.1 200 OK" ++ CRLF ++ B "Content-Type: " ++ mt ++ CRLF ++ CRLF ++ content.

(** The four responses the server knows. *)
Definition known_response (response : bytes) : Prop :=
  response = response_method_not_allowed
  ∨ response = response_not_found
  ∨ response = not_implemented
  ∨ ∃ content mt, mt ≠ [] ∧ response = ok_response content mt.

(** * Properties *)

(** ** Splitting, joining and stripping *)

Lemma splitlines_nonempty (s : str) : s ≠ [] → Py.splitlines s ≠ [].
Proof.
  destruct s as [|c rest]; [done|]. intros _. simpl.
  destruct (Py.is_linebreak c); [done|].
  by destruct (Py.splitlines rest).
Qed.

Lemma first_line_spec request :
  request ≠ [] → ∃ rest, Py.splitlines request = first_line request :: rest.
Proof.
  intros Hne. apply splitlines_nonempty in Hne. unfold first_line.
  destruct (Py.splitlines request) as [|first rest]; [done|]. by exists rest.
Qed.

Lemma split_ws_tokens_nonempty (s : str) : Forall (fun tok => tok ≠ []) (Py.split_ws s).
Proof.
  induction s as [|c rest IH]; simpl; [constructor|].
  destruct (Py.is_space c); [done|].
  destruct rest as [|c' rest']; [by repeat constructor|].
  destruct (Py.is_space c'); [by constructor|].
  destruct (Py.split_ws (c' :: rest')) as [|tok toks]; [by repeat constructor|].
  inversion IH; subst. by constructor.
Qed.

Lemma startswith_app {A} `{EqDecision A} (s prefix : list A) :
  Py.startswith s prefix = true → s = prefix ++ drop (length prefix) s.
Proof.
  revert s. induction prefix as [|p prefix' IH]; intros s; simpl; [done|].
  destruct s as [|c s']; [done|].
  intros [->%bool_decide_eq_true Hrest]%andb_true_iff. simpl.
  f_equal. by apply IH.
Qed.

Lemma split_from_nonempty {A} `{EqDecision A} (sep : list A) (skip : nat) (s : list A) :
  Py.split_from sep skip s ≠ [].
Proof.
  revert skip. induction s as [|c rest IH]; intros skip; simpl; [done|].
  destruct skip; [|apply IH].
  destruct (Py.startswith _ _); [done|].
  by destruct (Py.split_from sep 0 rest).
Qed.

Lemma join_cons {A} (sep x : list A) (rest : list (list A)) :
  rest ≠ [] → Py.join sep (x :: rest) = x ++ sep ++ Py.join sep rest.
Proof. by destruct rest. Qed.

Lemma join_push {A} (sep : list A) (c : A) (piece : list A) (pieces : list (list A)) :
  Py.join sep ((c :: piece) :: pieces) = c :: Py.join sep (piece :: pieces).
Proof. by destruct pieces. Qed.

(** Joining the pieces of a split with the separator gives the string back:
    the pieces are the string's own characters, unchanged. *)
Lemma join_split_from {A} `{EqDecision A} (sep : list A) (skip : nat) (s : list A) :
  sep ≠ [] → Py.join sep (Py.split_from sep skip s) = drop skip s.
Proof.
  intros Hsep. revert skip.
  induction s as [|c rest IH]; intros skip; simpl; [by destruct skip|].
  destruct skip as [|k]; [|apply IH].
  destruct (Py.startswith (c :: rest) sep) eqn:Hstart.
  - rewrite join_cons by apply split_from_nonempty. rewrite IH.
    destruct sep as [|p sep']; [done|]. simpl in *.
    apply andb_true_iff in Hstart as [->%bool_decide_eq_true Hstart].
    f_equal. symmetry. by apply startswith_app.
  - pose proof (split_from_nonempty sep 0 rest) as Hne. specialize (IH 0%nat).
    destruct (Py.split_from sep 0 rest) as [|piece pieces]; [done|].
    by rewrite join_push, IH.
Qed.

Lemma join_split {A} `{EqDecision A} (s sep : list A) :
  sep ≠ [] → Py.join sep (Py.split s sep) = s.
Proof. intros. unfold Py.split. by rewrite join_split_from. Qed.

Lemma split_two {A} `{EqDecision A} (s sep key value : list A) :
  sep ≠ [] → Py.split s sep = [key; value] → s = key ++ sep ++ value.
Proof. intros Hsep Hsplit. by rewrite <- (join_split s sep Hsep), Hsplit. Qed.

Lemma lstrip_snoc {A} `{EqDecision A} (s chars : list A) (c : A) :
  c ∉ chars → Py.lstrip (s ++ [c]) chars = Py.lstrip s chars ++ [c].
Proof.
  intros Hc. induction s as [|d rest IH]; simpl.
  - by rewrite bool_decide_eq_false_2.
  - by case_bool_decide.
Qed.

(** What [strip] leaves does not start with a stripped character. *)
Lemma strip_head {A} `{EqDecision A} (s chars : list A) :
  match Py.strip s chars with
  | c :: _ => c ∉ chars
  | [] => True
  end.
Proof.
  unfold Py.strip, Py.rstrip.
  assert (match Py.lstrip s chars with c :: _ => c ∉ chars | [] => True end) as Hl.
  { induction s as [|c rest IH]; simpl; [done|]. by case_bool_decide. }
  destruct (Py.lstrip s chars) as [|c t]; [done|].
  rewrite reverse_cons, lstrip_snoc, reverse_snoc by done. done.
Qed.

(** ** The UTF-8 codec: encoding undoes decoding *)

#[local] Ltac Zify.zify_post_hook ::= Z.to_euclidean_division_equations.

Lemma byte_of_val (b : ascii) : Py.byte_of (Py.byte_val b) = b.
Proof. apply ascii_N_embedding. Qed.

Lemma continuation_Some (b : ascii) (c : N) :
  Py.continuation b = Some c → Py.byte_val b = 0x80 + c ∧ c < 0x40.
Proof.
  unfold Py.continuation.
  destruct (N.leb_spec 0x80 (Py.byte_val b)), (N.ltb_spec (Py.byte_val b) 0xC0);
    simpl; intros [= <-]; lia.
Qed.

Lemma fmap_Ok_inv {A B} (f : A → B) (m : result A) (y : B) :
  f <$> m = Ok y → ∃ x, m = Ok x ∧ y = f x.
Proof. destruct m as [x|e]; simpl; [intros [= <-]; by exists x|done]. Qed.

(** The encoder's four cases, each read from the bytes a decoder accepted. *)
Lemma encode_char_1 (n0 : N) :
  n0 < 0x80 → Py.encode_char n0 = Ok [Py.byte_of n0].
Proof. intros. unfold Py.encode_char. by destruct (N.ltb_spec n0 0x80); [|lia]. Qed.

Lemma encode_char_2 (n0 c1 : N) :
  0xC0 ≤ n0 → n0 < 0xE0 → c1 < 0x40 → 0x80 ≤ (n0 - 0xC0) * 0x40 + c1 →
  Py.encode_char ((n0 - 0xC0) * 0x40 + c1) = Ok [Py.byte_of n0; Py.byte_of (0x80 + c1)].
Proof.
  intros. unfold Py.encode_char.
  destruct (N.ltb_spec ((n0 - 0xC0) * 0x40 + c1) 0x80); [lia|].
  destruct (N.ltb_spec ((n0 - 0xC0) * 0x40 + c1) 0x800); [|lia].
  replace (0xC0 + ((n0 - 0xC0) * 0x40 + c1) / 0x40) with n0 by lia.
  by replace (((n0 - 0xC0) * 0x40 + c1) mod 0x40) with c1 by lia.
Qed.

Lemma encode_char_3 (n0 c1 c2 : N) :
  0xE0 ≤ n0 → n0 < 0xF0 → c1 < 0x40 → c2 < 0x40 →
  0x800 ≤ (n0 - 0xE0) * 0x1000 + c1 * 0x40 + c2 →
  Py.is_surrogate ((n0 - 0xE0) * 0x1000 + c1 * 0x40 + c2) = false →
  Py.encode_char ((n0 - 0xE0) * 0x1000 + c1 * 0x40 + c2)
  = Ok [Py.byte_of n0; Py.byte_of (0x80 + c1); Py.byte_of (0x80 + c2)].
Proof.
  intros ? ? ? ? ? Hsurrogate. unfold Py.encode_char. rewrite Hsurrogate.
  set (c := (n0 - 0xE0) * 0x1000 + c1 * 0x40 + c2) in *.
  destruct (N.ltb_spec c 0x80); [lia|].
  destruct (N.ltb_spec c 0x800); [lia|].
  destruct (N.ltb_spec c 0x10000); [|lia].
  replace (0xE0 + c / 0x1000) with n0 by (subst c; lia).
  replace ((c / 0x40) mod 0x40) with c1 by (subst c; lia).
  by replace (c mod 0x40) with c2 by (subst c; lia).
Qed.

Lemma encode_char_4 (n0 c1 c2 c3 : N) :
  0xF0 ≤ n0 → n0 < 0xF8 → c1 < 0x40 → c2 < 0x40 → c3 < 0x40 →
  0x10000 ≤ (n0 - 0xF0) * 0x40000 + c1 * 0x1000 + c2 * 0x40 + c3 →
  (n0 - 0xF0) * 0x40000 + c1 * 0x1000 + c2 * 0x40 + c3 ≤ 0x10FFFF →
  Py.encode_char ((n0 - 0xF0) * 0x40000 + c1 * 0x1000 + c2 * 0x40 + c3)
  = Ok [Py.byte_of n0; Py.byte_of (0x80 + c1); Py.byte_of (0x80 + c2);
        Py.byte_of (0x80 + c3)].
Proof.
  intros. unfold Py.encode_char.
  set (c := (n0 - 0xF0) * 0x40000 + c1 * 0x1000 + c2 * 0x40 + c3) in *.
  destruct (N.ltb_spec c 0x80); [lia|].
  destruct (N.ltb_spec c 0x800); [lia|].
  destruct (N.ltb_spec c 0x10000); [lia|].
  destruct (N.ltb_spec c 0x110000); [|lia].
  replace (0xF0 + c / 0x40000) with n0 by (subst c; lia).
  replace ((c / 0x1000) mod 0x40) with c1 by (subst c; lia).
  replace ((c / 0x40) mod 0x40) with c2 by (subst c; lia).
  by replace (c mod 0x40) with c3 by (subst c; lia).
Qed.

(** One step of the decoder: the bytes it consumes are the encoding of the
    character it produces, and a CR comes from the byte 13 only. *)
Lemma utf8_decode_step (b0 : ascii) (r0 : bytes) (s : str) :
  Py.utf8_decode (b0 :: r0) = Ok s →
  ∃ c enc r s',
    b0 :: r0 = enc ++ r ∧ s = c :: s'
    ∧ Py.encode_char c = Ok enc
    ∧ Py.utf8_decode r = Ok s'
    ∧ (length r ≤ length r0)%nat
    ∧ (c = Py.CR → b0 = "013"%char).
Proof.
  simpl. pose proof (byte_of_val b0) as Hb0.
  set (n0 := Py.byte_val b0) in *.
  destruct (N.ltb_spec n0 0x80) as [H1|H1].
  { intros (s' & Hrest & ->)%fmap_Ok_inv.
    exists n0, [b0], r0, s'. rewrite encode_char_1, Hb0 by done.
    repeat split; try done. intros Hcr. by rewrite <- Hb0, Hcr. }
  destruct (N.ltb_spec n0 0xC0) as [H2|H2]; [done|].
  destruct (N.ltb_spec n0 0xE0) as [H3|H3].
  { destruct r0 as [|b1 r1]; [done|].
    destruct (Py.continuation b1) as [c1|] eqn:Hc1; [|done].
    apply continuation_Some in Hc1 as [Hv1 Hc1].
    destruct (N.ltb_spec ((n0 - 0xC0) * 0x40 + c1) 0x80) as [H4|H4]; [done|].
    intros (s' & Hrest & ->)%fmap_Ok_inv.
    exists ((n0 - 0xC0) * 0x40 + c1), [b0; b1], r1, s'.
    rewrite encode_char_2, Hb0, <- Hv1, byte_of_val by done.
    repeat split; try done; [simpl; lia|]. unfold Py.CR. lia. }
  destruct (N.ltb_spec n0 0xF0) as [H4|H4].
  { destruct r0 as [|b1 [|b2 r2]]; [done..|].
    destruct (Py.continuation b1) as [c1|] eqn:Hc1; [|done].
    destruct (Py.continuation b2) as [c2|] eqn:Hc2; [|done].
    apply continuation_Some in Hc1 as [Hv1 Hc1].
    apply continuation_Some in Hc2 as [Hv2 Hc2].
    destruct (N.ltb_spec ((n0 - 0xE0) * 0x1000 + c1 * 0x40 + c2) 0x800) as [H5|H5];
      [done|].
    destruct (Py.is_surrogate _) eqn:H6; [done|]. simpl.
    intros (s' & Hrest & ->)%fmap_Ok_inv.
    exists ((n0 - 0xE0) * 0x1000 + c1 * 0x40 + c2), [b0; b1; b2], r2, s'.
    rewrite encode_char_3, Hb0, <- Hv1, <- Hv2, !byte_of_val by done.
    repeat split; try done; [simpl; lia|]. unfold Py.CR. lia. }
  destruct (N.ltb_spec n0 0xF8) as [H5|H5]; [|done].
  destruct r0 as [|b1 [|b2 [|b3 r3]]]; [done..|].
  destruct (Py.continuation b1) as [c1|] eqn:Hc1; [|done].
  destruct (Py.continuation b2) as [c2|] eqn:Hc2; [|done].
  destruct (Py.continuation b3) as [c3|] eqn:Hc3; [|done].
  apply continuation_Some in Hc1 as [Hv1 Hc1].
  apply continuation_Some in Hc2 as [Hv2 Hc2].
  apply continuation_Some in Hc3 as [Hv3 Hc3].
  set (c := (n0 - 0xF0) * 0x40000 + c1 * 0x1000 + c2 * 0x40 + c3).
  destruct (N.ltb_spec c 0x10000) as [H6|H6]; [done|].
  destruct (N.ltb_spec 0x10FFFF c) as [H7|H7]; [done|]. simpl.
  intros (s' & Hrest & ->)%fmap_Ok_inv.
  exists c, [b0; b1; b2; b3], r3, s'. subst c.
  rewrite encode_char_4, Hb0, <- Hv1, <- Hv2, <- Hv3, !byte_of_val by done.
  repeat split; try done; [simpl; lia|]. unfold Py.CR. lia.
Qed.

(** Decoding then encoding gives the bytes back. *)
Lemma utf8_encode_decode (bs : bytes) (s : str) :
  Py.utf8_decode bs = Ok s → Py.utf8_encode s = Ok bs.
Proof.
  remember (length bs) as n eqn:Hn. revert bs s Hn.
  induction (lt_wf n) as [n _ IH]. intros [|b0 r0] s -> Hdecode.
  - by injection Hdecode as <-.
  - apply utf8_decode_step in Hdecode
      as (c & enc & r & s' & Hsplit & -> & Henc & Hrest & Hlen & _).
    simpl. rewrite Henc. simpl.
    rewrite (IH (length r) ltac:(simpl; lia) r s' eq_refl Hrest). simpl.
    by rewrite Hsplit.
Qed.

(** A decoded text holds a CR only where the bytes hold the byte 13. *)
Lemma utf8_decode_no_CR (bs : bytes) (s : str) :
  Py.utf8_decode bs = Ok s → "013"%char ∉ bs → Py.CR ∉ s.
Proof.
  remember (length bs) as n eqn:Hn. revert bs s Hn.
  induction (lt_wf n) as [n _ IH]. intros [|b0 r0] s -> Hdecode Hbytes.
  - injection Hdecode as <-. apply not_elem_of_nil.
  - apply utf8_decode_step in Hdecode
      as (c & enc & r & s' & Hsplit & -> & Henc & Hrest & Hlen & Hcr).
    apply not_elem_of_cons. split.
    + intros Heq. apply Hbytes. rewrite Hcr by done. apply list_elem_of_here.
    + apply (IH (length r) ltac:(simpl; lia) r s' eq_refl Hrest).
      intros Hin. apply Hbytes. rewrite Hsplit. apply elem_of_app. by right.
Qed.

Lemma utf8_encode_app (s1 s2 : str) :
  Py.utf8_encode (s1 ++ s2)
  = (bs1 ← Py.utf8_encode s1; bs2 ← Py.utf8_encode s2; Ok (bs1 ++ bs2)).
Proof.
  induction s1 as [|c rest IH]; simpl.
  - by destruct (Py.utf8_encode s2).
  - destruct (Py.encode_char c) as [bs|e]; [simpl|done]. rewrite IH.
    destruct (Py.utf8_encode rest) as [bs1|e]; [simpl|done].
    destruct (Py.utf8_encode s2) as [bs2|e]; [simpl|done].
    by rewrite app_assoc.
Qed.

Lemma universal_newlines_id (s : str) :
  Py.CR ∉ s → Py.universal_newlines s = s.
Proof.
  induction s as [|c rest IH]; [done|].
  intros [Hc Hrest]%not_elem_of_cons. simpl.
  rewrite bool_decide_eq_false_2 by done. by rewrite IH.
Qed.

(** Reading a text file and encoding the text gives the file's bytes when
    they are valid UTF-8 without the byte 13. *)
Lemma read_text_encode (data : bytes) (text : str) :
  Py.utf8_decode data = Ok text → "013"%char ∉ data →
  (text ← Py.read_text data; Py.utf8_encode text) = Ok data.
Proof.
  intros Hdecode Hcr. unfold Py.read_text. rewrite Hdecode. simpl.
  rewrite universal_newlines_id by by eapply utf8_decode_no_CR.
  by apply utf8_encode_decode.
Qed.

(** ** The request parser *)

(** The loop over the header lines leaves the request line's variables alone. *)
Lemma header_loop_keeps_request_line lines st st' e :
  header_loop lines st = (st', e) →
  method st' = method st ∧ uri st' = uri st ∧ version st' = version st.
Proof.
  revert st. induction lines as [|line rest IH]; intros st; simpl.
  - by intros [= <- _].
  - case_bool_decide; [|by apply IH].
    destruct (Py.unpack2 _) as [[key value]|err].
    + intros Hrest. by apply IH in Hrest.
    + by intros [= <- _].
Qed.

(** A line with exactly one [": "] is stored: the name and the value are
    the line's own characters on either side of the separator. *)
Lemma header_loop_stores (line key value : str) (rest : list str) (st : locals) :
  Py.split line (U ": ") = [key; value] →
  line = key ++ U ": " ++ value
  ∧ header_loop (line :: rest) st
    = header_loop rest
        (Locals (method st) (uri st) (version st) (<[key := value]> (headers st))).
Proof.
  intros Hsplit. split; [by apply split_two|].
  simpl. rewrite Hsplit. rewrite bool_decide_eq_true_2; [done|].
  by intros ->.
Qed.

(** Of two lines with the same name the later value is the one kept. *)
Lemma header_loop_last_wins (line1 line2 key value1 value2 : str) (st : locals) :
  Py.split line1 (U ": ") = [key; value1] →
  Py.split line2 (U ": ") = [key; value2] →
  header_loop [line1; line2] st
  = (Locals (method st) (uri st) (version st) (<[key := value2]> (headers st)), None).
Proof.
  intros Hone Htwo.
  rewrite (proj2 (header_loop_stores line1 key value1 [line2] st Hone)).
  rewrite (proj2 (header_loop_stores line2 key value2 [] _ Htwo)). simpl.
  by rewrite insert_insert_eq.
Qed.

(** A non-empty line that does not split into exactly two pieces stops the
    loop with [ValueError]. *)
Lemma header_loop_raises (line : str) (rest : list str) (st : locals) :
  line ≠ [] → length (Py.split line (U ": ")) ≠ 2%nat →
  header_loop (line :: rest) st = (st, Some ValueError).
Proof.
  intros Hline Hpieces. simpl. rewrite bool_decide_eq_true_2 by done.
  by destruct (Py.split line (U ": ")) as [|? [|? [|? ?]]].
Qed.

(** What [parse_request] returns, it returns in one of two shapes: the three
    sentinels with no header, for the empty request only, or three non-empty
    strings. *)
Lemma parse_request_shapes request m u v h :
  parse_request request = Ok (m, u, v, h) →
  (request = [] ∧ m = PyFalse ∧ u = PyFalse ∧ v = PyFalse ∧ h = ∅)
  ∨ (∃ sm su sv, m = PyStr sm ∧ u = PyStr su ∧ v = PyStr sv
       ∧ sm ≠ [] ∧ su ≠ [] ∧ sv ≠ []).
Proof.
  unfold parse_request, try_block, Py.index.
  destruct (Py.splitlines request) as [|first rest] eqn:Hlines; simpl.
  - intros [= <- <- <- <-]. left.
    destruct request; [done|]. by destruct (splitlines_nonempty (n :: request)).
  - pose proof (split_ws_tokens_nonempty first) as Htok.
    destruct (Py.split_ws first) as [|sm [|su [|sv [|? ?]]]]; simpl; try done.
    rewrite drop_0.
    destruct (header_loop rest _) as [st' [e|]] eqn:Hloop;
      apply header_loop_keeps_request_line in Hloop as (Hm & Hu & Hv); simpl in *.
    + case_decide; [|done]. intros [= <- <- <- <-]. right.
      exists sm, su, sv. rewrite Hm, Hu, Hv.
      inversion Htok as [|? ? ? Htok']; inversion Htok' as [|? ? ? Htok''];
        inversion Htok''; subst. done.
    + intros [= <- <- <- <-]. right.
      exists sm, su, sv. rewrite Hm, Hu, Hv.
      inversion Htok as [|? ? ? Htok']; inversion Htok' as [|? ? ? Htok''];
        inversion Htok''; subst. done.
Qed.

(** The sentinels come back for the empty request and for no other. *)
Lemma parse_request_sentinels_iff (request : str) :
  parse_request request = Ok (PyFalse, PyFalse, PyFalse, ∅) ↔ request = [].
Proof.
  split; [|by intros ->].
  intros Hparse.
  by apply parse_request_shapes in Hparse as [(? & _)|(? & ? & ? & [=] & _)].
Qed.

Example parse_request_get :
  parse_request (U "GET /a.html HTTP/1.1" ++ crlf ++ U "Host: here" ++ crlf
                 ++ U "Accept: */*" ++ crlf ++ U "Host: there" ++ crlf ++ crlf)
  = Ok (PyStr (U "GET"), PyStr (U "/a.html"), PyStr (U "HTTP/1.1"),
        <[U "Host" := U "there"]> (<[U "Accept" := U "*/*"]> ∅)).
Proof. vm_compute. reflexivity. Qed.

(** ** Paths *)

(** The path always reads [webroot/] followed by the stripped URI. *)
Lemma effective_path_shape (uri : str) :
  effective_path uri = WEBROOT ++ [Py.SLASH] ++ Py.strip uri (U "/").
Proof.
  unfold effective_path, Py.path_join.
  pose proof (strip_head uri (U "/")) as Hhead.
  destruct (Py.strip uri (U "/")) as [|c t]; [reflexivity|].
  simpl. rewrite bool_decide_eq_false_2; [reflexivity|].
  intros ->. apply Hhead. apply list_elem_of_here.
Qed.

Lemma foldl_norm_step_grows (segments : list str) (stack : list str) :
  U ".." ∉ segments → ∃ above, foldl norm_step stack segments = above ++ stack.
Proof.
  revert stack. induction segments as [|segment rest IH]; intros stack Hdots.
  - by exists [].
  - apply not_elem_of_cons in Hdots as [Hseg Hrest]. simpl.
    unfold norm_step at 2.
    destruct (bool_decide (segment = []) || bool_decide (segment = U ".")).
    + by apply IH.
    + case_bool_decide; [congruence|].
      destruct (IH (segment :: stack) Hrest) as [above ->].
      exists (above ++ [segment]). by rewrite <- app_assoc.
Qed.

(** X23. Without a [..] segment in the URI the path stays under the root:
    the escape of C2 needs one. *)
Lemma effective_path_without_dotdot (uri : str) :
  U ".." ∉ Py.split (Py.strip uri (U "/")) (U "/") →
  under_webroot (effective_path uri) = true.
Proof.
  intros Hdots. rewrite effective_path_shape. unfold under_webroot, normpath.
  change (Py.split (WEBROOT ++ [Py.SLASH] ++ Py.strip uri (U "/")) (U "/"))
    with (WEBROOT :: Py.split (Py.strip uri (U "/")) (U "/")).
  change (foldl norm_step [] (WEBROOT :: ?segments))
    with (foldl norm_step [WEBROOT] segments).
  destruct (foldl_norm_step_grows _ [WEBROOT] Hdots) as [above ->].
  rewrite reverse_app. reflexivity.
Qed.

(** ** The resolver and the handler *)

(** What [resolve_uri] does with a file whose guessed type is [text/...]:
    it reads the file in text mode and encodes the text. *)
Lemma resolve_uri_text (P : platform) (uri : str) (data : bytes)
    (mime_type sub_type : str) :
  lookup_path P (effective_path uri) = Some (RegularFile data) →
  guess_type P (effective_path uri) = Some mime_type →
  Py.split mime_type (U "/") = [U "text"; sub_type] →
  resolve_uri P uri
  = (content ← (text ← Py.read_text data; Py.utf8_encode text);
     mt ← Py.utf8_encode mime_type;
     Ok (PyBytes content, PyBytes mt)).
Proof.
  intros Hfile Hguess Hsplit. unfold resolve_uri. rewrite Hfile, Hguess, Hsplit.
  rewrite bool_decide_eq_true_2 by by intros ->. reflexivity.
Qed.

Section Handler.

Variable P : platform.

Lemma respond_empty : respond P [] = Ok response_method_not_allowed.
Proof. reflexivity. Qed.

(** A request that parses reaches the resolver with its URI. *)
Lemma respond_parsed request m uri v h :
  parse_request request = Ok (PyStr m, PyStr uri, v, h) →
  respond P request =
    try_except
      ('(content, mime_type) ← resolve_uri P uri;
       if truthy mime_type then response_ok content mime_type
       else Ok not_implemented)
      NameError (Ok response_not_found).
Proof.
  intros Hparse. unfold respond. rewrite Hparse. simpl.
  apply parse_request_shapes in Hparse as [(_ & [=] & _)|(sm & ? & ? & [= <-] & _ & _ & Hm & _)].
  by rewrite bool_decide_eq_true_2.
Qed.

Lemma handle_connection_sends conn request queue response :
  receive (recv_queue conn) [] = (Ok request, queue) →
  respond P request = Ok response →
  handle_connection P conn = (Connection queue (sent conn ++ response) true, None).
Proof.
  intros Hrecv Hresp. unfold handle_connection. rewrite Hrecv. simpl.
  by rewrite Hresp.
Qed.

End Handler.

(** ** The properties C1 to C10 of the specification *)

(** C1. Fails on the code: a header line without [": "] makes the
    two-way unpacking in [parse_request] raise [ValueError], which neither
    [parse_request] nor the handler catches.  On any platform the connection
    is closed without a response and the exception ends [server]: the
    connections that follow are never served. *)
Theorem bare_header_line_ends_server (P : platform) (later : list connection) :
  parse_request (U "GET / HTTP/1.1" ++ crlf ++ U "Host" ++ crlf ++ crlf)
    = Raise ValueError
  ∧ handle_connection P (fresh [request_bare_header])
    = (Connection [] [] true, Some ValueError)
  ∧ server P (fresh [request_bare_header] :: later)
    = ([Connection [] [] true], Some ValueError).
Proof.
  assert (handle_connection P (fresh [request_bare_header])
          = (Connection [] [] true, Some ValueError)) as Hhandle
    by (vm_compute; reflexivity).
  split; [vm_compute; reflexivity|]. split; [exact Hhandle|].
  cbn [server]. by rewrite Hhandle.
Qed.

(** C2. Fails on the code: the path of [/../secret.txt] is
    [webroot/../secret.txt], which denotes [secret.txt] beside the root, and
    [resolve_uri] returns that file. *)
Theorem dotdot_uri_leaves_webroot :
  effective_path (U "/../secret.txt") = U "webroot/../secret.txt"
  ∧ normpath (effective_path (U "/../secret.txt")) = [U "secret.txt"]
  ∧ under_webroot (effective_path (U "/../secret.txt")) = false
  ∧ resolve_uri demo (U "/../secret.txt")
    = Ok (PyBytes (B "top secret"), PyBytes (B "text/plain")).
Proof. repeat split; vm_compute; reflexivity. Qed.

(** C3, restricted to what the code does.  For a file guessed as [text/...] whose bytes
    are valid UTF-8 and hold no carriage return, [resolve_uri] returns
    exactly the file's bytes, with the encoded media type, which starts with
    [text/]. *)
Theorem text_file_round_trip (P : platform) (uri : str) (data : bytes) (text : str)
    (mime_type sub_type : str) (mt : bytes) :
  lookup_path P (effective_path uri) = Some (RegularFile data) →
  guess_type P (effective_path uri) = Some mime_type →
  Py.split mime_type (U "/") = [U "text"; sub_type] →
  Py.utf8_encode mime_type = Ok mt →
  Py.utf8_decode data = Ok text →
  "013"%char ∉ data →
  resolve_uri P uri = Ok (PyBytes data, PyBytes mt)
  ∧ Py.startswith mt (B "text/") = true.
Proof.
  intros Hfile Hguess Hsplit Hmt Hdecode Hcr. split.
  - rewrite (resolve_uri_text P uri data mime_type sub_type) by done.
    rewrite (read_text_encode data text), Hmt by done. reflexivity.
  - apply split_two in Hsplit; [|done]. subst mime_type.
    change (U "text" ++ U "/" ++ sub_type) with (U "text/" ++ sub_type) in Hmt.
    rewrite utf8_encode_app in Hmt. simpl in Hmt.
    destruct (Py.utf8_encode sub_type) as [bs|e]; [|done].
    by injection Hmt as <-.
Qed.

Lemma text_file_round_trip_witness :
  resolve_uri demo (U "/a.html")
  = Ok (PyBytes (B "<html></html>"), PyBytes (B "text/html")).
Proof.
  refine (proj1 (text_file_round_trip demo (U "/a.html") (B "<html></html>")
    (U "<html></html>") (U "text/html") (U "html") (B "text/html") _ _ _ _ _ _));
    try reflexivity.
  vm_compute. intros Hin.
  by repeat (apply elem_of_cons in Hin as [[=]|Hin]); apply elem_of_nil in Hin.
Defined.

(** C3 as stated fails: [notes.txt] holds [one CR LF two], its
    type is [text/plain], and the content returned is [one LF two]. *)
Lemma text_file_crlf_not_verbatim :
  ¬ (∀ (P : platform) (uri : str) (data : bytes) (mime_type sub_type : str),
       lookup_path P (effective_path uri) = Some (RegularFile data) →
       guess_type P (effective_path uri) = Some mime_type →
       Py.split mime_type (U "/") = [U "text"; sub_type] →
       ∃ mt, resolve_uri P uri = Ok (PyBytes data, PyBytes mt)
             ∧ Py.startswith mt (B "text/") = true).
Proof.
  intros Hall.
  destruct (Hall demo (U "/notes.txt") (B "one" ++ CRLF ++ B "two")
              (U "text/plain") (U "plain") eq_refl eq_refl eq_refl)
    as (mt & Hresolve & _).
  vm_compute in Hresolve. discriminate Hresolve.
Qed.

(** A text file that is not valid UTF-8 is not served at all: the decoding
    error leaves [resolve_uri] and, uncaught, the handler. *)
Lemma text_file_latin1_raises :
  lookup_path demo (effective_path (U "/latin1.txt"))
    = Some (RegularFile (B "caf" ++ [ascii_of_N 0xE9]))
  ∧ resolve_uri demo (U "/latin1.txt") = Raise UnicodeDecodeError
  ∧ handle_connection demo (fresh [B "GET /latin1.txt HTTP/1.1" ++ CRLF ++ CRLF])
    = (Connection [] [] true, Some UnicodeDecodeError).
Proof. repeat split; vm_compute; reflexivity. Qed.

(** C4. Fails on the code: [line.split(": ")] cuts at every
    occurrence of the separator, so a header whose value holds [": "] gives
    three pieces and the unpacking into [key, value] raises [ValueError]
    where the specification has the value [a: b] stored. *)
Theorem header_value_with_separator_raises :
  Py.split (U "X-Note: a: b") (U ": ") = [U "X-Note"; U "a"; U "b"]
  ∧ parse_request (U "GET / HTTP/1.1" ++ crlf ++ U "X-Note: a: b" ++ crlf ++ crlf)
    = Raise ValueError.
Proof. split; vm_compute; reflexivity. Qed.

(** C5. The empty request parses to the three sentinels and an empty header
    mapping; the handler then answers 405 whatever the platform holds, that
    is without resolving anything. *)
Theorem empty_request_gets_405 (P : platform) (conn : connection) (queue : list bytes) :
  receive (recv_queue conn) [] = (Ok [], queue) →
  parse_request [] = Ok (PyFalse, PyFalse, PyFalse, ∅)
  ∧ respond P [] = Ok response_method_not_allowed
  ∧ handle_connection P conn
    = (Connection queue (sent conn ++ response_method_not_allowed) true, None).
Proof.
  intros Hrecv. split; [reflexivity|]. split; [apply respond_empty|].
  eapply handle_connection_sends; [exact Hrecv|apply respond_empty].
Qed.

Lemma empty_request_gets_405_witness :
  handle_connection demo (fresh [])
  = (Connection [] (B "HTTP/1.1 405 Method Not Allowed") true, None).
Proof.
  apply (empty_request_gets_405 demo (fresh []) []). reflexivity.
Defined.

(** C6. A regular file whose media type cannot be guessed makes
    [resolve_uri] return the sentinels [False] and [None], which is a
    return and not the [NameError] of a missing path, and the handler
    answers 501. *)
Theorem unknown_type_gets_501 (P : platform) (conn : connection)
    (request : str) (queue : list bytes) (m uri : str) (v : pyval) (h : gmap str str)
    (data : bytes) :
  receive (recv_queue conn) [] = (Ok request, queue) →
  parse_request request = Ok (PyStr m, PyStr uri, v, h) →
  lookup_path P (effective_path uri) = Some (RegularFile data) →
  guess_type P (effective_path uri) = None →
  resolve_uri P uri = Ok (PyFalse, PyNone)
  ∧ resolve_uri P uri ≠ Raise NameError
  ∧ handle_connection P conn
    = (Connection queue (sent conn ++ not_implemented) true, None).
Proof.
  intros Hrecv Hparse Hfile Hguess.
  assert (resolve_uri P uri = Ok (PyFalse, PyNone)) as Hresolve.
  { unfold resolve_uri. by rewrite Hfile, Hguess. }
  split; [exact Hresolve|]. split; [by rewrite Hresolve|].
  eapply handle_connection_sends; [exact Hrecv|].
  rewrite (respond_parsed P _ _ _ _ _ Hparse), Hresolve. reflexivity.
Qed.

Lemma unknown_type_gets_501_witness :
  handle_connection demo
    (fresh [B "GET /Makefile HTTP/1.1" ++ CRLF ++ CRLF])
  = (Connection [] (B "HTTP/1.1 501 Not Implemented") true, None).
Proof.
  refine (proj2 (proj2 (unknown_type_gets_501 demo
    (fresh [B "GET /Makefile HTTP/1.1" ++ CRLF ++ CRLF])
    (U "GET /Makefile HTTP/1.1" ++ crlf ++ crlf) []
    (U "GET") (U "/Makefile") (PyStr (U "HTTP/1.1")) ∅ (B "all:") _ _ _ _)));
    reflexivity.
Defined.

(** C7. A URI whose path does not exist makes [resolve_uri] raise
    [NameError], with no content, and the handler answers 404. *)
Theorem missing_path_gets_404 (P : platform) (conn : connection)
    (request : str) (queue : list bytes) (m uri : str) (v : pyval) (h : gmap str str) :
  receive (recv_queue conn) [] = (Ok request, queue) →
  parse_request request = Ok (PyStr m, PyStr uri, v, h) →
  lookup_path P (effective_path uri) = None →
  resolve_uri P uri = Raise NameError
  ∧ handle_connection P conn
    = (Connection queue (sent conn ++ response_not_found) true, None).
Proof.
  intros Hrecv Hparse Hmissing.
  assert (resolve_uri P uri = Raise NameError) as Hresolve.
  { unfold resolve_uri. by rewrite Hmissing. }
  split; [exact Hresolve|].
  eapply handle_connection_sends; [exact Hrecv|].
  rewrite (respond_parsed P _ _ _ _ _ Hparse), Hresolve. reflexivity.
Qed.

Lemma missing_path_gets_404_witness :
  handle_connection demo
    (fresh [B "GET /missing.txt HTTP/1.1" ++ CRLF ++ CRLF])
  = (Connection [] (B "HTTP/1.1 404 Not Found") true, None).
Proof.
  refine (proj2 (missing_path_gets_404 demo
    (fresh [B "GET /missing.txt HTTP/1.1" ++ CRLF ++ CRLF])
    (U "GET /missing.txt HTTP/1.1" ++ crlf ++ crlf) []
    (U "GET") (U "/missing.txt") (PyStr (U "HTTP/1.1")) ∅ _ _ _));
    reflexivity.
Defined.

(** C8. For a file guessed as [image/png], [resolve_uri] returns the file's
    bytes as they are, and [response_ok] applied to its result gives a
    response whose body, the bytes after the blank line, is the file. *)
Theorem png_round_trip (P : platform) (uri : str) (data : bytes) :
  lookup_path P (effective_path uri) = Some (RegularFile data) →
  guess_type P (effective_path uri) = Some (U "image/png") →
  ∃ response,
    ('(content, mime_type) ← resolve_uri P uri; response_ok content mime_type)
      = Ok response
    ∧ resolve_uri P uri = Ok (PyBytes data, PyBytes (B "image/png"))
    ∧ response
      = B "HTTP/1.1 200 OK" ++ CRLF ++ B "Content-Type: image/png" ++ CRLF ++ CRLF ++ data
    ∧ body_of response = Some data.
Proof.
  intros Hfile Hguess.
  assert (resolve_uri P uri = Ok (PyBytes data, PyBytes (B "image/png"))) as Hresolve.
  { unfold resolve_uri. rewrite Hfile, Hguess. reflexivity. }
  eexists. rewrite Hresolve. repeat split; reflexivity.
Qed.

Lemma png_round_trip_witness :
  ∃ response,
    ('(content, mime_type) ← resolve_uri demo (U "/images/sample_1.png");
     response_ok content mime_type) = Ok response
    ∧ body_of response
      = Some (map ascii_of_N [0x89; 0x50; 0x4E; 0x47; 0x0D; 0x0A; 0x1A; 0x0A]).
Proof.
  destruct (png_round_trip demo (U "/images/sample_1.png")
              (map ascii_of_N [0x89; 0x50; 0x4E; 0x47; 0x0D; 0x0A; 0x1A; 0x0A])
              eq_refl eq_refl) as (response & Hbuilt & _ & _ & Hbody).
  exists response. split; assumption.
Defined.

(** C9. The 404, 405 and 501 builders produce their status line and nothing
    else: the bytes are exactly the status line, which holds neither a CR nor
    a LF, so no header line, no body and no blank line follow it. *)
Theorem error_responses_are_bare_status_lines :
  response_not_found = B "HTTP/1.1 404 Not Found"
  ∧ response_method_not_allowed = B "HTTP/1.1 405 Method Not Allowed"
  ∧ not_implemented = B "HTTP/1.1 501 Not Implemented"
  ∧ Forall (fun response => ("013"%char ∉ response) ∧ ("010"%char ∉ response)
                            ∧ body_of response = None)
      [response_not_found; response_method_not_allowed; not_implemented].
Proof.
  repeat split; try reflexivity.
  repeat constructor; try reflexivity;
    (intros Hin; vm_compute in Hin; by repeat (apply elem_of_cons in Hin as [[=]|Hin]);
       try apply elem_of_nil in Hin).
Qed.

(** C10. A non-empty request whose first line does not split into exactly
    three tokens makes [parse_request] raise [ValueError]: the [except
    IndexError] clause does not catch it, no sentinel is returned, and the
    handler lets it through as well. *)
Theorem request_line_not_three_tokens_raises (request : str) :
  request ≠ [] →
  length (Py.split_ws (first_line request)) ≠ 3%nat →
  parse_request request = Raise ValueError
  ∧ ∀ P, respond P request = Raise ValueError.
Proof.
  intros Hne Htokens.
  assert (parse_request request = Raise ValueError) as Hparse.
  { destruct (first_line_spec request Hne) as [rest Hlines].
    unfold parse_request, try_block, Py.index. rewrite Hlines. simpl.
    by destruct (Py.split_ws (first_line request)) as [|? [|? [|? [|? ?]]]]. }
  split; [exact Hparse|]. intros P. unfold respond. by rewrite Hparse.
Qed.

Lemma request_line_not_three_tokens_raises_witness :
  parse_request (U "GET /") = Raise ValueError
  ∧ parse_request (U "GET") = Raise ValueError.
Proof.
  split.
  - apply (request_line_not_three_tokens_raises (U "GET /")); [discriminate|].
    vm_compute. lia.
  - apply (request_line_not_three_tokens_raises (U "GET")); [discriminate|].
    vm_compute. lia.
Defined.

(** * Further properties of the code *)

(** ** The parser on requests as clients write them *)

Lemma linebreak_is_space (c : N) : Py.is_linebreak c = true → Py.is_space c = true.
Proof.
  unfold Py.is_linebreak. intros Hc%bool_decide_eq_true.
  repeat (apply elem_of_cons in Hc as [->|Hc]; [reflexivity|]).
  by apply elem_of_nil in Hc.
Qed.

Lemma token_inv (s : str) :
  token s = true → s ≠ [] ∧ Forall (fun c => Py.is_space c = false) s.
Proof.
  unfold token. intros [Hne%bool_decide_eq_true Hall]%andb_true_iff.
  split; [done|]. clear Hne. induction s as [|c rest IH]; [constructor|].
  simpl in Hall. apply andb_true_iff in Hall as [Hc Hrest].
  constructor; [by apply negb_true_iff|by apply IH].
Qed.

Lemma token_intro (s : str) :
  s ≠ [] → Forall (fun c => Py.is_space c = false) s → token s = true.
Proof.
  intros Hne Hall. unfold token. rewrite bool_decide_eq_true_2 by done. simpl.
  clear Hne. induction Hall as [|c rest Hc _ IH]; [done|]. simpl. by rewrite Hc.
Qed.

Lemma one_line_inv (s : str) :
  one_line s = true → Forall (fun c => Py.is_linebreak c = false) s.
Proof.
  unfold one_line. induction s as [|c rest IH]; [constructor|]. simpl.
  intros [Hc Hrest]%andb_true_iff.
  constructor; [by apply negb_true_iff|by apply IH].
Qed.

Lemma token_one_line (s : str) : token s = true → one_line s = true.
Proof.
  intros [_ Hall]%token_inv. unfold one_line.
  induction Hall as [|c rest Hc _ IH]; [done|]. simpl. rewrite IH, andb_true_r.
  destruct (Py.is_linebreak c) eqn:Hbreak; [|done].
  apply linebreak_is_space in Hbreak. congruence.
Qed.

Lemma one_line_app (s1 s2 : str) :
  one_line (s1 ++ s2) = one_line s1 && one_line s2.
Proof. unfold one_line. apply forallb_app. Qed.

(** A line ended by CR LF is the first line [splitlines] gives. *)
Lemma splitlines_line (line rest : str) :
  one_line line = true →
  Py.splitlines (line ++ crlf ++ rest) = line :: Py.splitlines rest.
Proof.
  intros Hline%one_line_inv. induction Hline as [|c line' Hc _ IH].
  - reflexivity.
  - simpl in *. by rewrite Hc, IH.
Qed.

Lemma split_ws_token (tok : str) : token tok = true → Py.split_ws tok = [tok].
Proof.
  intros [Hne Hall]%token_inv. induction Hall as [|c rest Hc Hrest IH]; [done|].
  simpl. rewrite Hc. destruct rest as [|c' rest']; [done|].
  inversion Hrest as [|? ? Hc' _]; subst. rewrite Hc'. by rewrite IH.
Qed.

Lemma split_ws_cons_cons (c c' : N) (rest : str) :
  Py.split_ws (c :: c' :: rest)
  = if Py.is_space c then Py.split_ws (c' :: rest)
    else if Py.is_space c' then [c] :: Py.split_ws (c' :: rest)
    else match Py.split_ws (c' :: rest) with
         | tok :: toks => (c :: tok) :: toks
         | [] => [[c]]
         end.
Proof. reflexivity. Qed.

Lemma split_ws_token_space (tok rest : str) :
  token tok = true →
  Py.split_ws (tok ++ U " " ++ rest) = tok :: Py.split_ws rest.
Proof.
  intros [Hne Hall]%token_inv. induction Hall as [|c tok' Hc Htok IH]; [done|].
  destruct tok' as [|c' tok''].
  - change (Py.split_ws (c :: 32 :: rest) = [c] :: Py.split_ws rest).
    rewrite split_ws_cons_cons, Hc. reflexivity.
  - inversion Htok as [|? ? Hc' _]; subst.
    specialize (IH ltac:(done)).
    change (Py.split_ws (c :: c' :: (tok'' ++ U " " ++ rest))
            = (c :: c' :: tok'') :: Py.split_ws rest).
    rewrite split_ws_cons_cons, Hc, Hc'.
    change (c' :: tok'' ++ U " " ++ rest) with ((c' :: tok'') ++ U " " ++ rest).
    by rewrite IH.
Qed.

Lemma request_line_tokens (m u v : str) :
  token m = true → token u = true → token v = true →
  Py.split_ws (m ++ U " " ++ u ++ U " " ++ v) = [m; u; v].
Proof.
  intros Hm Hu Hv.
  by rewrite !split_ws_token_space, split_ws_token by done.
Qed.

Lemma request_line_one_line (m u v : str) :
  token m = true → token u = true → token v = true →
  one_line (m ++ U " " ++ u ++ U " " ++ v) = true.
Proof.
  intros Hm%token_one_line Hu%token_one_line Hv%token_one_line.
  by rewrite !one_line_app, Hm, Hu, Hv.
Qed.

Lemma header_loop_header_lines (hs : list (str * str)) (st : locals) :
  Forall (fun h => Py.split (header_line h) (U ": ") = [h.1; h.2]) hs →
  header_loop (map header_line hs ++ [[]]) st
  = (Locals (method st) (uri st) (version st)
       (foldl (fun acc h => <[h.1 := h.2]> acc) (headers st) hs), None).
Proof.
  intros Hall. revert st. induction Hall as [|h hs' Hh _ IH]; intros st.
  - by destruct st.
  - change (map header_line (h :: hs') ++ [[]])
      with (header_line h :: (map header_line hs' ++ [[]])).
    rewrite (proj2 (header_loop_stores _ _ _ _ st Hh)). by rewrite IH.
Qed.

Lemma splitlines_header_lines (hs : list (str * str)) :
  Forall (fun h => one_line (header_line h) = true) hs →
  Py.splitlines (concat (map (fun h => header_line h ++ crlf) hs) ++ crlf)
  = map header_line hs ++ [[]].
Proof.
  induction 1 as [|h hs' Hh _ IH]; [reflexivity|].
  simpl. rewrite <- !app_assoc. rewrite splitlines_line by done. by rewrite IH.
Qed.

Lemma foldl_insert_list_to_map (hs : list (str * str)) :
  foldl (fun acc h => <[h.1 := h.2]> acc) (∅ : gmap str str) hs
  = list_to_map (reverse hs).
Proof.
  induction hs as [|h hs' IH] using rev_ind; [done|].
  by rewrite foldl_app, reverse_snoc, IH.
Qed.

(** X1. Parsing undoes writing: a request written as a request line of
    three tokens, header lines [name: value] that [": "] cuts in two, and a
    blank line parses to those three tokens and to the mapping of the
    headers, a later header replacing an earlier one of the same name. *)
Theorem parse_request_of_request_text (m u v : str) (hs : list (str * str)) :
  token m = true → token u = true → token v = true →
  Forall (fun h => Py.split (header_line h) (U ": ") = [h.1; h.2]
                   ∧ one_line (header_line h) = true) hs →
  parse_request (request_text m u v hs)
  = Ok (PyStr m, PyStr u, PyStr v, list_to_map (reverse hs)).
Proof.
  intros Hm Hu Hv Hhs. apply Forall_and in Hhs as [Hsplit Hlines].
  unfold parse_request, request_text, try_block.
  rewrite splitlines_line by by apply request_line_one_line.
  rewrite splitlines_header_lines by done.
  cbn [Py.index lookup list_lookup]. rewrite request_line_tokens by done.
  cbn [Py.unpack3]. rewrite skipn_cons, drop_0.
  rewrite header_loop_header_lines by done. simpl.
  by rewrite foldl_insert_list_to_map.
Qed.

Lemma parse_request_of_request_text_witness :
  parse_request
    (request_text (U "GET") (U "/a.html") (U "HTTP/1.1")
       [(U "Host", U "localhost:10000"); (U "Accept", U "*/*"); (U "Host", U "there")])
  = Ok (PyStr (U "GET"), PyStr (U "/a.html"), PyStr (U "HTTP/1.1"),
        list_to_map [(U "Host", U "there"); (U "Accept", U "*/*");
                     (U "Host", U "localhost:10000")]).
Proof.
  apply (parse_request_of_request_text (U "GET") (U "/a.html") (U "HTTP/1.1")
    [(U "Host", U "localhost:10000"); (U "Accept", U "*/*"); (U "Host", U "there")]);
    try reflexivity.
  repeat constructor.
Defined.

Lemma split_ws_tokens (s : str) : Forall (fun tok => token tok = true) (Py.split_ws s).
Proof.
  induction s as [|c rest IH]; [constructor|].
  destruct rest as [|c' rest'].
  - simpl. destruct (Py.is_space c) eqn:Hc; [constructor|].
    repeat constructor. unfold token. simpl. by rewrite Hc.
  - rewrite split_ws_cons_cons. destruct (Py.is_space c) eqn:Hc; [done|].
    assert (token [c] = true) as Hone by (unfold token; simpl; by rewrite Hc).
    destruct (Py.is_space c'); [by constructor|].
    destruct (Py.split_ws (c' :: rest')) as [|tok toks]; [by repeat constructor|].
    inversion IH as [|? ? Htok Htoks]; subst. constructor; [|done].
    apply token_inv in Htok as [_ Hall]. apply token_intro; [done|].
    constructor; [done|exact Hall].
Qed.

Lemma header_loop_raises_ValueError (lines : list str) (st st' : locals) (e : exn) :
  header_loop lines st = (st', Some e) → e = ValueError.
Proof.
  revert st. induction lines as [|line rest IH]; intros st; simpl; [done|].
  case_bool_decide; [|apply IH].
  destruct (Py.split line (U ": ")) as [|? [|? [|? ?]]]; simpl;
    try by intros [= _ <-].
  apply IH.
Qed.

Lemma header_loop_finishes_iff (lines : list str) (st : locals) :
  (∃ st', header_loop lines st = (st', None)) ↔ Forall header_line_ok lines.
Proof.
  revert st. induction lines as [|line rest IH]; intros st; simpl.
  - split; [constructor|by exists st].
  - case_bool_decide as Hline.
    + destruct (Py.split line (U ": ")) as [|k [|val [|? ?]]] eqn:Hsplit; simpl.
      * split; [by intros [? [=]]|]. intros Hall. inversion Hall as [|? ? [?|Hlen] _]; subst.
        -- done.
        -- by rewrite Hsplit in Hlen.
      * split; [by intros [? [=]]|]. intros Hall. inversion Hall as [|? ? [?|Hlen] _]; subst.
        -- done.
        -- by rewrite Hsplit in Hlen.
      * rewrite IH. split.
        -- intros Hrest. constructor; [|done]. right. by rewrite Hsplit.
        -- by inversion 1.
      * split; [by intros [? [=]]|]. intros Hall. inversion Hall as [|? ? [?|Hlen] _]; subst.
        -- done.
        -- by rewrite Hsplit in Hlen.
    + subst line. rewrite IH. split.
      * intros Hrest. constructor; [by left|done].
      * by inversion 1.
Qed.

(** X2. [parse_request] has three outcomes and no other: the sentinels with
    no header for the empty request; three tokens, none empty and none with
    white space; or [ValueError] on a request that is not empty.  No
    [IndexError] leaves it and no triple is filled in part. *)
Theorem parse_request_outcomes (request : str) :
  (request = [] ∧ parse_request request = Ok (PyFalse, PyFalse, PyFalse, ∅))
  ∨ (∃ m u v h, parse_request request = Ok (PyStr m, PyStr u, PyStr v, h)
       ∧ token m = true ∧ token u = true ∧ token v = true)
  ∨ (request ≠ [] ∧ parse_request request = Raise ValueError).
Proof.
  destruct request as [|c rest]; [by left|]. right.
  destruct (first_line_spec (c :: rest) ltac:(done)) as [lines Hlines].
  unfold parse_request, try_block. rewrite Hlines.
  cbn [Py.index lookup list_lookup]. rewrite skipn_cons, drop_0.
  pose proof (split_ws_tokens (first_line (c :: rest))) as Htok.
  destruct (Py.split_ws (first_line (c :: rest))) as [|m [|u [|v [|? ?]]]];
    try by right.
  cbn [Py.unpack3].
  destruct (header_loop lines _) as [st' [e|]] eqn:Hloop.
  - right. apply header_loop_raises_ValueError in Hloop as ->. done.
  - left. apply header_loop_keeps_request_line in Hloop as (Hm & Hu & Hv).
    simpl in *. exists m, u, v, (headers st'). rewrite Hm, Hu, Hv.
    inversion Htok as [|? ? ? Htok']; inversion Htok' as [|? ? ? Htok''];
      inversion Htok''; subst. done.
Qed.

(** X3. [parse_request] returns a parsed request exactly when the first
    line splits into three tokens and every later line is blank or is cut
    in two by [": "]. *)
Theorem parse_request_succeeds_iff (request : str) :
  (∃ m u v h, parse_request request = Ok (PyStr m, PyStr u, PyStr v, h))
  ↔ length (Py.split_ws (first_line request)) = 3%nat
    ∧ Forall header_line_ok (drop 1 (Py.splitlines request)).
Proof.
  destruct request as [|c rest].
  { split; [by intros (? & ? & ? & ? & [=])|by intros [[=] _]]. }
  destruct (first_line_spec (c :: rest) ltac:(done)) as [lines Hlines].
  unfold parse_request, try_block. rewrite Hlines.
  cbn [Py.index lookup list_lookup]. rewrite skipn_cons, drop_0.
  destruct (Py.split_ws (first_line (c :: rest))) as [|m [|u [|v [|? ?]]]];
    try (split; [by intros (? & ? & ? & ? & [=])|by intros [[=] _]]).
  cbn [Py.unpack3].
  rewrite <- (header_loop_finishes_iff lines (Locals (PyStr m) (PyStr u) (PyStr v) ∅)).
  destruct (header_loop lines _) as [st' [e|]] eqn:Hloop.
  - apply header_loop_raises_ValueError in Hloop as ->.
    split; [by intros (? & ? & ? & ? & [=])|by intros [_ [? [=]]]].
  - split; [intros _; split; [done|by exists st']|]. intros _.
    apply header_loop_keeps_request_line in Hloop as (Hm & Hu & Hv). simpl in *.
    exists m, u, v, (headers st'). by rewrite Hm, Hu, Hv.
Qed.

Lemma header_loop_provenance (lines : list str) (st st' : locals) (e : option exn)
    (key value : str) :
  header_loop lines st = (st', e) →
  headers st' !! key = Some value →
  headers st !! key = Some value ∨ key ++ U ": " ++ value ∈ lines.
Proof.
  revert st. induction lines as [|line rest IH]; intros st; simpl.
  - intros [= <- _]. by left.
  - case_bool_decide as Hline.
    + destruct (Py.unpack2 (Py.split line (U ": "))) as [[k val]|err] eqn:Hunpack.
      * assert (line = k ++ U ": " ++ val) as Heq.
        { apply split_two; [done|]. unfold Py.unpack2 in Hunpack.
          by destruct (Py.split line (U ": ")) as [|? [|? [|? ?]]]; simplify_eq. }
        intros Hloop Hlook. destruct (IH _ Hloop Hlook) as [Hst|Hin].
        -- cbn [headers] in Hst. destruct (decide (k = key)) as [->|Hne].
           ++ rewrite lookup_insert_eq in Hst. simplify_eq. right.
              apply elem_of_cons. by left.
           ++ rewrite lookup_insert_ne in Hst by done. by left.
        -- right. apply elem_of_cons. by right.
      * intros [= <- _]. by left.
    + intros Hloop Hlook. destruct (IH _ Hloop Hlook) as [Hst|Hin]; [by left|].
      right. apply elem_of_cons. by right.
Qed.

(** X4. Every header [parse_request] returns is a line of the request: the
    name, [": "] and the value, character for character, on a line after
    the first. *)
Theorem parse_request_headers_from_lines (request : str) (m u v : pyval)
    (h : gmap str str) (key value : str) :
  parse_request request = Ok (m, u, v, h) →
  h !! key = Some value →
  key ++ U ": " ++ value ∈ drop 1 (Py.splitlines request).
Proof.
  unfold parse_request, try_block, Py.index.
  destruct (Py.splitlines request) as [|first lines]; simpl.
  { by intros [= <- <- <- <-]. }
  destruct (Py.unpack3 (Py.split_ws first)) as [[[m' u'] v']|err]; simpl.
  2: { case_decide; [|done]. by intros [= <- <- <- <-]. }
  rewrite drop_0.
  destruct (header_loop lines _) as [st' e] eqn:Hloop.
  intros Hret Hlook.
  assert (h = headers st') as ->.
  { destruct e as [e|]; [|by injection Hret].
    case_decide; [by injection Hret|done]. }
  by destruct (header_loop_provenance _ _ _ _ _ _ Hloop Hlook).
Qed.

Lemma parse_request_headers_from_lines_witness :
  U "Host" ++ U ": " ++ U "there"
  ∈ drop 1 (Py.splitlines
      (request_text (U "GET") (U "/") (U "HTTP/1.1")
         [(U "Host", U "here"); (U "Host", U "there")])).
Proof.
  apply (parse_request_headers_from_lines
    (request_text (U "GET") (U "/") (U "HTTP/1.1")
       [(U "Host", U "here"); (U "Host", U "there")])
    (PyStr (U "GET")) (PyStr (U "/")) (PyStr (U "HTTP/1.1"))
    (<[U "Host" := U "there"]> ∅) (U "Host") (U "there")).
  - vm_compute. reflexivity.
  - vm_compute. reflexivity.
Defined.

(** ** What the handler sends *)

Lemma response_ok_bytes (content mt : bytes) :
  response_ok (PyBytes content) (PyBytes mt) = Ok (ok_response content mt).
Proof. reflexivity. Qed.

(** Where a response of [respond] comes from. *)
Lemma respond_cases (P : platform) (request : str) (response : bytes) :
  respond P request = Ok response →
  (request = [] ∧ response = response_method_not_allowed)
  ∨ response = response_not_found
  ∨ response = not_implemented
  ∨ ∃ content mt, mt ≠ [] ∧ response = ok_response content mt.
Proof.
  unfold respond.
  destruct (parse_request request) as [[[[m u] v] h]|e] eqn:Hparse; [|done].
  apply parse_request_shapes in Hparse
    as [(-> & -> & _)|(sm & su & sv & -> & -> & _ & Hm & _)]; simpl.
  { intros [= <-]. by left. }
  rewrite bool_decide_eq_true_2 by done.
  destruct (resolve_uri P su) as [[content mime_type]|e]; simpl.
  - destruct (truthy mime_type) eqn:Htruthy.
    + destruct mime_type as [| |?|mt], content as [| |?|bs]; try done.
      rewrite response_ok_bytes. intros [= <-].
      right. right. right. exists bs, mt. split; [|done].
      simpl in Htruthy. by apply bool_decide_eq_true in Htruthy.
    + intros [= <-]. right. right. by left.
  - case_decide; [|done]. intros [= <-]. right. by left.
Qed.

(** X5. Whatever happens, the handler closes the connection.  It writes to
    it at most once: either one of the four known responses, or, when an
    exception leaves the handler, nothing at all. *)
Theorem handle_connection_outcome (P : platform) (conn : connection) :
  closed (handle_connection P conn).1 = true
  ∧ (((handle_connection P conn).2 = None
      ∧ ∃ response, known_response response
          ∧ sent (handle_connection P conn).1 = sent conn ++ response)
     ∨ (∃ e, (handle_connection P conn).2 = Some e
          ∧ sent (handle_connection P conn).1 = sent conn)).
Proof.
  unfold handle_connection.
  destruct (receive (recv_queue conn) []) as [request queue].
  destruct (request ≫= respond P) as [response|e] eqn:Hresponse; simpl.
  - split; [done|]. left. split; [done|]. exists response. split; [|done].
    destruct request as [request|?]; [|done]. simpl in Hresponse.
    apply respond_cases in Hresponse as [[_ ->]|[->|[->|Hok]]].
    + by left.
    + right. by left.
    + right. right. by left.
    + right. right. by right.
  - split; [done|]. right. by exists e.
Qed.

(** X6. The 405 response is the answer to the empty request and to no
    other request. *)
Theorem method_not_allowed_iff_empty (P : platform) (request : str) :
  respond P request = Ok response_method_not_allowed ↔ request = [].
Proof.
  split; [|by intros ->].
  intros [[-> _]|[Heq|[Heq|(content & mt & _ & Heq)]]]%respond_cases;
    [done|discriminate Heq..].
Qed.

(** X7. The response depends on the URI alone: two requests that parse to
    the same URI get the same response, whatever their methods, versions
    and headers. *)
Theorem respond_by_uri_alone (P : platform) (request1 request2 : str)
    (m1 m2 uri : str) (v1 v2 : pyval) (h1 h2 : gmap str str) :
  parse_request request1 = Ok (PyStr m1, PyStr uri, v1, h1) →
  parse_request request2 = Ok (PyStr m2, PyStr uri, v2, h2) →
  respond P request1 = respond P request2.
Proof.
  intros Hone Htwo.
  by rewrite (respond_parsed P _ _ _ _ _ Hone), (respond_parsed P _ _ _ _ _ Htwo).
Qed.

Lemma respond_by_uri_alone_witness :
  respond demo (U "GET /a.html HTTP/1.1")
  = respond demo (request_text (U "DELETE") (U "/a.html") (U "HTTP/0.9")
                    [(U "Host", U "here")]).
Proof.
  apply (respond_by_uri_alone demo
    (U "GET /a.html HTTP/1.1")
    (request_text (U "DELETE") (U "/a.html") (U "HTTP/0.9") [(U "Host", U "here")])
    (U "GET") (U "DELETE") (U "/a.html")
    (PyStr (U "HTTP/1.1")) (PyStr (U "HTTP/0.9")) ∅ (<[U "Host" := U "here"]> ∅));
    vm_compute; reflexivity.
Defined.

(** ** The accept loop *)

Lemma server_cons_ok (P : platform) (conn : connection) (later : list connection) :
  (handle_connection P conn).2 = None →
  server P (conn :: later)
  = ((handle_connection P conn).1 :: (server P later).1, (server P later).2).
Proof.
  intros Hok. simpl. destruct (handle_connection P conn) as [conn' outcome].
  simpl in Hok. subst outcome. by destruct (server P later).
Qed.

Lemma server_cons_raise (P : platform) (conn : connection) (later : list connection)
    (e : exn) :
  (handle_connection P conn).2 = Some e →
  server P (conn :: later) = ([(handle_connection P conn).1], Some e).
Proof.
  intros Hraise. simpl. destruct (handle_connection P conn) as [conn' outcome].
  simpl in Hraise. by subst outcome.
Qed.

(** X8. While no handler raises, the server handles every connection, each
    on its own and in the order of arrival. *)
Theorem server_serves_all (P : platform) (incoming : list connection) :
  Forall (fun conn => (handle_connection P conn).2 = None) incoming →
  server P incoming = (map (fun conn => (handle_connection P conn).1) incoming, None).
Proof.
  induction 1 as [|conn later Hconn _ IH]; [done|].
  rewrite server_cons_ok by done. by rewrite IH.
Qed.

Lemma server_serves_all_witness :
  server demo [fresh [request_root]; fresh []; fresh [B "GET /nope HTTP/1.1"]]
  = ([Connection [] (ok_response (B "total 0") (B "text/plain")) true;
      Connection [] response_method_not_allowed true;
      Connection [] response_not_found true], None).
Proof.
  apply (server_serves_all demo
    [fresh [request_root]; fresh []; fresh [B "GET /nope HTTP/1.1"]]).
  repeat constructor.
Defined.

(** X9. The first exception that leaves a handler ends the server: the
    connections before it are handled, the one that raised is closed, and
    the connections after it are never touched, whatever they hold. *)
Theorem server_stops_at_first_exception (P : platform)
    (before later : list connection) (conn : connection) (e : exn) :
  Forall (fun c => (handle_connection P c).2 = None) before →
  (handle_connection P conn).2 = Some e →
  server P (before ++ conn :: later)
  = (map (fun c => (handle_connection P c).1) before ++ [(handle_connection P conn).1],
     Some e).
Proof.
  intros Hbefore Hraise. induction Hbefore as [|c before' Hc _ IH].
  - by apply server_cons_raise.
  - simpl app. rewrite server_cons_ok by done. by rewrite IH.
Qed.

Lemma server_stops_at_first_exception_witness :
  server demo ([fresh [request_root]] ++ fresh [request_bare_header]
               :: [fresh [request_root]; fresh []])
  = ([Connection [] (ok_response (B "total 0") (B "text/plain")) true;
      Connection [] [] true], Some ValueError).
Proof.
  apply (server_stops_at_first_exception demo [fresh [request_root]]
    [fresh [request_root]; fresh []] (fresh [request_bare_header]) ValueError).
  - repeat constructor.
  - reflexivity.
Defined.

(** X10. Every connection the server has accepted is closed when it
    returns or dies, and it never handles more connections than arrived. *)
Theorem server_closes_what_it_accepts (P : platform) (incoming : list connection) :
  Forall (fun conn => closed conn = true) (server P incoming).1
  ∧ (length (server P incoming).1 ≤ length incoming)%nat.
Proof.
  induction incoming as [|conn later [IHclosed IHlen]]; [by split|].
  assert (closed (handle_connection P conn).1 = true) as Hclosed.
  { unfold handle_connection. destruct (receive _ _) as [request queue].
    by destruct (request ≫= respond P). }
  destruct ((handle_connection P conn).2) as [e|] eqn:Houtcome.
  - rewrite (server_cons_raise _ _ _ e) by done. simpl.
    split; [by repeat constructor|lia].
  - rewrite server_cons_ok by done. simpl. split; [by constructor|lia].
Qed.

(** ** Reading the request *)

(** X11. The request is the text of the chunks up to the first one shorter
    than 1024 bytes, that one included; the chunks after it stay unread.
    When the peer closes after full chunks only, the request is their
    text. *)
Theorem receive_until_short_chunk (full : list bytes) (texts : list str)
    (last : bytes) (text : str) (rest : list bytes) (request : str) :
  Forall2 (fun data t => Py.utf8_decode data = Ok t ∧ (1024 ≤ length data)%nat)
    full texts →
  Py.utf8_decode last = Ok text →
  (length last < 1024)%nat →
  receive (full ++ last :: rest) request = (Ok (request ++ concat texts ++ text), rest)
  ∧ receive full request = (Ok (request ++ concat texts), []).
Proof.
  intros Hfull Hlast Hshort. revert request.
  induction Hfull as [|data t full' texts' [Hdata Hlen] _ IH]; intros request.
  - simpl. rewrite Hlast. rewrite (proj2 (Nat.ltb_lt _ _)) by done.
    by rewrite app_nil_r.
  - simpl. rewrite Hdata. rewrite (proj2 (Nat.ltb_ge _ _)) by done.
    destruct (IH (request ++ t)) as [-> ->]. by rewrite <- !app_assoc.
Qed.

Lemma receive_until_short_chunk_witness :
  receive ([replicate 1024 "a"%char] ++ B "bc" :: [B "next"]) (U "")
  = (Ok (U "" ++ concat [replicate 1024 97] ++ U "bc"), [B "next"]).
Proof.
  refine (proj1 (receive_until_short_chunk [replicate 1024 "a"%char]
    [replicate 1024 97] (B "bc") (U "bc") [B "next"] (U "") _ _ _)).
  - constructor; [split; [reflexivity|vm_compute; lia]|constructor].
  - reflexivity.
  - vm_compute. lia.
Defined.

Lemma fmap_Raise_inv {A B} (f : A → B) (m : result A) (e : exn) :
  f <$> m = Raise e → m = Raise e.
Proof. destruct m; simpl; [done|]. by intros [= ->]. Qed.

(** The decoder raises [UnicodeDecodeError] and nothing else. *)
Lemma utf8_decode_raises (bs : bytes) (e : exn) :
  Py.utf8_decode bs = Raise e → e = UnicodeDecodeError.
Proof.
  remember (length bs) as n eqn:Hn. revert bs Hn.
  induction (lt_wf n) as [n _ IH]. intros [|b0 r0] -> Hdecode; [done|].
  simpl in Hdecode.
  repeat case_match; simplify_eq; try done;
    apply fmap_Raise_inv in Hdecode;
    (eapply IH; [|reflexivity|exact Hdecode]); simpl; lia.
Qed.

Lemma encode_char_last (c : N) (enc : bytes) :
  Py.encode_char c = Ok enc → ∃ b, last enc = Some b ∧ Py.byte_val b < 0xC0.
Proof.
  assert (∀ n, n < 0xC0 → Py.byte_val (Py.byte_of n) < 0xC0) as Hbyte.
  { intros n Hn. unfold Py.byte_val, Py.byte_of. rewrite N_ascii_embedding; lia. }
  unfold Py.encode_char.
  destruct (N.ltb_spec c 0x80).
  { intros [= <-]. eexists. split; [reflexivity|]. apply Hbyte. lia. }
  destruct (N.ltb_spec c 0x800).
  { intros [= <-]. eexists. split; [reflexivity|]. apply Hbyte. lia. }
  destruct (N.ltb_spec c 0x10000).
  { destruct (Py.is_surrogate c); [done|].
    intros [= <-]. eexists. split; [reflexivity|]. apply Hbyte. lia. }
  destruct (N.ltb_spec c 0x110000); [|done].
  intros [= <-]. eexists. split; [reflexivity|]. apply Hbyte. lia.
Qed.

(** Bytes that decode do not end inside a character: the last byte is not a
    lead byte. *)
Lemma utf8_decode_last (bs : bytes) (s : str) (b : ascii) :
  Py.utf8_decode bs = Ok s → last bs = Some b → Py.byte_val b < 0xC0.
Proof.
  remember (length bs) as n eqn:Hn. revert bs s Hn.
  induction (lt_wf n) as [n _ IH]. intros [|b0 r0] s -> Hdecode Hlast; [done|].
  apply utf8_decode_step in Hdecode
    as (c & enc & r & s' & Hsplit & -> & Henc & Hrest & Hlen & _).
  rewrite Hsplit, last_app in Hlast.
  destruct (last r) as [b'|] eqn:Hr.
  - injection Hlast as ->.
    by apply (IH (length r) ltac:(simpl; lia) r s' eq_refl Hrest).
  - apply encode_char_last in Henc as (b' & Henc & Hb'). congruence.
Qed.



(** X13. Each chunk is decoded on its own, so a chunk that ends on the lead
    byte of a multi-byte character is refused, whatever bytes the next chunk
    would bring. *)
Theorem chunk_cut_inside_character (head : bytes) (lead : ascii)
    (rest : list bytes) (request : str) :
  0xC0 ≤ Py.byte_val lead →
  Py.utf8_decode (head ++ [lead]) = Raise UnicodeDecodeError
  ∧ receive ((head ++ [lead]) :: rest) request = (Raise UnicodeDecodeError, rest).
Proof.
  intros Hlead.
  assert (Py.utf8_decode (head ++ [lead]) = Raise UnicodeDecodeError) as Hdecode.
  { destruct (Py.utf8_decode (head ++ [lead])) as [s|e] eqn:Hdecode.
    - pose proof (utf8_decode_last _ _ lead Hdecode (last_snoc _ _)). lia.
    - by rewrite (utf8_decode_raises _ _ Hdecode). }
  split; [exact Hdecode|]. simpl. by rewrite Hdecode.
Qed.

Lemma chunk_cut_inside_character_witness :
  Py.utf8_decode (B "caf" ++ [ascii_of_N 0xC3] ++ [ascii_of_N 0xA9]) = Ok (U "caf" ++ [0xE9])
  ∧ receive ((B "caf" ++ [ascii_of_N 0xC3]) :: [[ascii_of_N 0xA9]]) []
    = (Raise UnicodeDecodeError, [[ascii_of_N 0xA9]]).
Proof.
  split; [reflexivity|].
  refine (proj2 (chunk_cut_inside_character (B "caf") (ascii_of_N 0xC3)
                   [[ascii_of_N 0xA9]] [] _)).
  vm_compute. discriminate.
Defined.

(** ** The resolver, branch by branch *)

Lemma handle_connection_raises (P : platform) (conn : connection)
    (request : str) (queue : list bytes) (e : exn) :
  receive (recv_queue conn) [] = (Ok request, queue) →
  respond P request = Raise e →
  handle_connection P conn = (Connection queue (sent conn) true, Some e).
Proof.
  intros Hrecv Hresp. unfold handle_connection. rewrite Hrecv. simpl.
  by rewrite Hresp.
Qed.

Lemma encode_char_nonempty (c : N) (enc : bytes) :
  Py.encode_char c = Ok enc → enc ≠ [].
Proof. unfold Py.encode_char. by repeat case_match; intros [= <-]. Qed.

Lemma utf8_encode_nonempty (s : str) (bs : bytes) :
  s ≠ [] → Py.utf8_encode s = Ok bs → bs ≠ [].
Proof.
  destruct s as [|c rest]; [done|]. intros _. simpl.
  destruct (Py.encode_char c) as [enc|] eqn:Henc; [|done]. simpl.
  destruct (Py.utf8_encode rest) as [bs'|]; [|done]. simpl. intros [= <-].
  apply encode_char_nonempty in Henc. by destruct enc.
Qed.

Lemma body_of_skip (pre rest : bytes) :
  "013"%char ∉ pre → body_of (pre ++ rest) = body_of rest.
Proof.
  induction pre as [|c pre' IH]; [done|].
  intros [Hc Hpre]%not_elem_of_cons. simpl.
  rewrite bool_decide_eq_false_2 by congruence. simpl. by apply IH.
Qed.

Lemma body_of_ok_response (content mt : bytes) :
  "013"%char ∉ mt → body_of (ok_response content mt) = Some content.
Proof.
  intros Hmt.
  change (body_of (ok_response content mt))
    with (body_of (mt ++ CRLF ++ CRLF ++ content)).
  by rewrite body_of_skip.
Qed.

(** X14. The body of a 200 response is the content it was built from,
    whatever the content, as long as the media type holds no carriage
    return. *)
Theorem response_ok_body (content mt : bytes) :
  "013"%char ∉ mt →
  ∃ response,
    response_ok (PyBytes content) (PyBytes mt) = Ok response
    ∧ response = B "HTTP/1.1 200 OK" ++ CRLF ++ B "Content-Type: " ++ mt
                 ++ CRLF ++ CRLF ++ content
    ∧ body_of response = Some content.
Proof.
  intros Hmt. exists (ok_response content mt).
  split; [reflexivity|]. split; [reflexivity|]. by apply body_of_ok_response.
Qed.

Lemma response_ok_body_witness :
  ∃ response,
    response_ok (PyBytes (CRLF ++ CRLF ++ B "x")) (PyBytes (B "text/html")) = Ok response
    ∧ body_of response = Some (CRLF ++ CRLF ++ B "x").
Proof.
  destruct (response_ok_body (CRLF ++ CRLF ++ B "x") (B "text/html"))
    as (response & Hbuilt & _ & Hbody).
  - vm_compute. intros Hin.
    by repeat (apply elem_of_cons in Hin as [[=]|Hin]); apply elem_of_nil in Hin.
  - exists response. by split.
Defined.

(** X15. A URI that names a directory is answered with the output of
    [ls -l] on its path, as [text/plain]. *)
Theorem directory_gets_listing (P : platform) (conn : connection)
    (request : str) (queue : list bytes) (m uri : str) (v : pyval) (h : gmap str str)
    (listing : bytes) :
  receive (recv_queue conn) [] = (Ok request, queue) →
  parse_request request = Ok (PyStr m, PyStr uri, v, h) →
  lookup_path P (effective_path uri) = Some Directory →
  check_output P (U "ls -l " ++ effective_path uri) = Ok listing →
  resolve_uri P uri = Ok (PyBytes listing, PyBytes (B "text/plain"))
  ∧ handle_connection P conn
    = (Connection queue (sent conn ++ ok_response listing (B "text/plain")) true, None)
  ∧ body_of (ok_response listing (B "text/plain")) = Some listing.
Proof.
  intros Hrecv Hparse Hdir Hls.
  assert (resolve_uri P uri = Ok (PyBytes listing, PyBytes (B "text/plain")))
    as Hresolve.
  { unfold resolve_uri. rewrite Hdir, Hls. reflexivity. }
  split; [exact Hresolve|]. split.
  - eapply handle_connection_sends; [exact Hrecv|].
    rewrite (respond_parsed P _ _ _ _ _ Hparse), Hresolve. reflexivity.
  - apply body_of_ok_response. vm_compute. intros Hin.
    by repeat (apply elem_of_cons in Hin as [[=]|Hin]); apply elem_of_nil in Hin.
Qed.

Lemma directory_gets_listing_witness :
  handle_connection demo (fresh [request_root])
  = (Connection [] (ok_response (B "total 0") (B "text/plain")) true, None).
Proof.
  refine (proj1 (proj2 (directory_gets_listing demo (fresh [request_root])
    (request_text (U "GET") (U "/") (U "HTTP/1.1") [(U "Host", U "localhost:10000")])
    [] (U "GET") (U "/") (PyStr (U "HTTP/1.1"))
    (<[U "Host" := U "localhost:10000"]> ∅) (B "total 0") _ _ _ _)));
    vm_compute; reflexivity.
Defined.

(** X16. When the listing command fails, the [CalledProcessError] is not
    caught: the connection is closed with nothing sent. *)
Theorem failed_listing_raises (P : platform) (conn : connection)
    (request : str) (queue : list bytes) (m uri : str) (v : pyval) (h : gmap str str) :
  receive (recv_queue conn) [] = (Ok request, queue) →
  parse_request request = Ok (PyStr m, PyStr uri, v, h) →
  lookup_path P (effective_path uri) = Some Directory →
  check_output P (U "ls -l " ++ effective_path uri) = Raise CalledProcessError →
  resolve_uri P uri = Raise CalledProcessError
  ∧ handle_connection P conn = (Connection queue (sent conn) true, Some CalledProcessError).
Proof.
  intros Hrecv Hparse Hdir Hls.
  assert (resolve_uri P uri = Raise CalledProcessError) as Hresolve.
  { unfold resolve_uri. rewrite Hdir, Hls. reflexivity. }
  split; [exact Hresolve|].
  eapply handle_connection_raises; [exact Hrecv|].
  rewrite (respond_parsed P _ _ _ _ _ Hparse), Hresolve. reflexivity.
Qed.

Lemma failed_listing_raises_witness :
  handle_connection demo_failing_ls (fresh [request_root])
  = (Connection [] [] true, Some CalledProcessError).
Proof.
  refine (proj2 (failed_listing_raises demo_failing_ls (fresh [request_root])
    (request_text (U "GET") (U "/") (U "HTTP/1.1") [(U "Host", U "localhost:10000")])
    [] (U "GET") (U "/") (PyStr (U "HTTP/1.1"))
    (<[U "Host" := U "localhost:10000"]> ∅) _ _ _ _));
    vm_compute; reflexivity.
Defined.

(** X17. A file whose guessed type is not [text/...] is served as it is on
    disk, byte for byte, under that type: the handler sends the 200 response
    made of the type and the file's bytes. *)
Theorem binary_file_served_verbatim (P : platform) (conn : connection)
    (request : str) (queue : list bytes) (m uri : str) (v : pyval) (h : gmap str str)
    (data : bytes) (mime_type base_type sub_type : str) (mt : bytes) :
  receive (recv_queue conn) [] = (Ok request, queue) →
  parse_request request = Ok (PyStr m, PyStr uri, v, h) →
  lookup_path P (effective_path uri) = Some (RegularFile data) →
  guess_type P (effective_path uri) = Some mime_type →
  Py.split mime_type (U "/") = [base_type; sub_type] →
  base_type ≠ U "text" →
  Py.utf8_encode mime_type = Ok mt →
  resolve_uri P uri = Ok (PyBytes data, PyBytes mt)
  ∧ handle_connection P conn
    = (Connection queue (sent conn ++ ok_response data mt) true, None).
Proof.
  intros Hrecv Hparse Hfile Hguess Hsplit Hbase Hmt.
  assert (mime_type ≠ []) as Hne by (by intros ->).
  assert (resolve_uri P uri = Ok (PyBytes data, PyBytes mt)) as Hresolve.
  { unfold resolve_uri. rewrite Hfile, Hguess, Hsplit.
    rewrite bool_decide_eq_true_2 by done. cbn [Py.unpack2 mbind result_bind].
    rewrite bool_decide_eq_false_2 by done. cbn [mbind result_bind].
    by rewrite Hmt. }
  split; [exact Hresolve|].
  eapply handle_connection_sends; [exact Hrecv|].
  rewrite (respond_parsed P _ _ _ _ _ Hparse), Hresolve. simpl.
  rewrite bool_decide_eq_true_2; [reflexivity|].
  by eapply utf8_encode_nonempty.
Qed.

Lemma binary_file_served_verbatim_witness :
  handle_connection demo (fresh [B "GET /images/sample_1.png HTTP/1.1"])
  = (Connection []
       (ok_response (map ascii_of_N [0x89; 0x50; 0x4E; 0x47; 0x0D; 0x0A; 0x1A; 0x0A])
          (B "image/png")) true, None).
Proof.
  refine (proj2 (binary_file_served_verbatim demo
    (fresh [B "GET /images/sample_1.png HTTP/1.1"])
    (U "GET /images/sample_1.png HTTP/1.1") []
    (U "GET") (U "/images/sample_1.png") (PyStr (U "HTTP/1.1")) ∅
    (map ascii_of_N [0x89; 0x50; 0x4E; 0x47; 0x0D; 0x0A; 0x1A; 0x0A])
    (U "image/png") (U "image") (U "png") (B "image/png") _ _ _ _ _ _ _));
    try (vm_compute; reflexivity).
  vm_compute. discriminate.
Defined.

(** The text a text-mode read gives holds no CR. *)
Lemma universal_newlines_no_CR (s : str) : Py.CR ∉ Py.universal_newlines s.
Proof.
  remember (length s) as n eqn:Hn. revert s Hn.
  induction (lt_wf n) as [n _ IH]. intros [|c rest] ->; [apply not_elem_of_nil|].
  simpl. case_bool_decide as Hc.
  - apply not_elem_of_cons. split; [done|].
    destruct rest as [|c' rest']; [apply not_elem_of_nil|].
    case_bool_decide.
    + by apply (IH (length rest') ltac:(simpl; lia)).
    + by apply (IH (length (c' :: rest')) ltac:(simpl; lia)).
  - apply not_elem_of_cons. split; [congruence|].
    by apply (IH (length rest) ltac:(simpl; lia)).
Qed.

Lemma byte_of_not_CR (n : N) : n < 256 → n ≠ 13 → Py.byte_of n ≠ "013"%char.
Proof.
  intros Hn Hne Heq. apply Hne.
  rewrite <- (N_ascii_embedding n Hn). unfold Py.byte_of in Heq. by rewrite Heq.
Qed.

Lemma encode_char_no_CR (c : N) (enc : bytes) :
  c ≠ Py.CR → Py.encode_char c = Ok enc → "013"%char ∉ enc.
Proof.
  unfold Py.CR, Py.encode_char. intros Hc.
  destruct (N.ltb_spec c 0x80).
  { intros [= <-]. apply not_elem_of_cons. split; [|apply not_elem_of_nil].
    intros Heq. symmetry in Heq. revert Heq. apply byte_of_not_CR; lia. }
  destruct (N.ltb_spec c 0x800).
  { intros [= <-].
    repeat (apply not_elem_of_cons; split;
            [intros Heq; symmetry in Heq; revert Heq; apply byte_of_not_CR; lia|]).
    apply not_elem_of_nil. }
  destruct (N.ltb_spec c 0x10000).
  { destruct (Py.is_surrogate c); [done|]. intros [= <-].
    repeat (apply not_elem_of_cons; split;
            [intros Heq; symmetry in Heq; revert Heq; apply byte_of_not_CR; lia|]).
    apply not_elem_of_nil. }
  destruct (N.ltb_spec c 0x110000); [|done]. intros [= <-].
  repeat (apply not_elem_of_cons; split;
          [intros Heq; symmetry in Heq; revert Heq; apply byte_of_not_CR; lia|]).
  apply not_elem_of_nil.
Qed.

Lemma utf8_encode_no_CR (s : str) (bs : bytes) :
  Py.CR ∉ s → Py.utf8_encode s = Ok bs → "013"%char ∉ bs.
Proof.
  revert bs. induction s as [|c rest IH]; intros bs Hs; simpl.
  - intros [= <-]. apply not_elem_of_nil.
  - apply not_elem_of_cons in Hs as [Hc Hrest].
    destruct (Py.encode_char c) as [enc|] eqn:Henc; [|done]. simpl.
    destruct (Py.utf8_encode rest) as [bs'|]; [|done]. simpl. intros [= <-].
    rewrite elem_of_app. intros [Hin|Hin].
    + by apply (encode_char_no_CR c enc ltac:(congruence) Henc).
    + by apply (IH bs' Hrest).
Qed.

(** X18. The content served for a text file never holds a carriage return:
    the text-mode read turns every CR LF and CR into LF before the text is
    encoded. *)
Theorem text_content_has_no_CR (P : platform) (uri : str) (data : bytes)
    (mime_type sub_type : str) (content : bytes) (mime : pyval) :
  lookup_path P (effective_path uri) = Some (RegularFile data) →
  guess_type P (effective_path uri) = Some mime_type →
  Py.split mime_type (U "/") = [U "text"; sub_type] →
  resolve_uri P uri = Ok (PyBytes content, mime) →
  has_CR content = false.
Proof.
  intros Hfile Hguess Hsplit.
  rewrite (resolve_uri_text P uri data mime_type sub_type) by done.
  unfold Py.read_text.
  destruct (Py.utf8_decode data) as [text|]; [|done]. simpl.
  destruct (Py.utf8_encode (Py.universal_newlines text)) as [bs|] eqn:Hbs; [|done].
  simpl. destruct (Py.utf8_encode mime_type); [|done]. simpl. intros [= <- _].
  apply bool_decide_eq_false_2.
  eapply utf8_encode_no_CR; [|exact Hbs]. apply universal_newlines_no_CR.
Qed.

Lemma text_content_has_no_CR_witness :
  has_CR (B "one" ++ ["010"%char] ++ B "two") = false.
Proof.
  apply (text_content_has_no_CR demo (U "/notes.txt") (B "one" ++ CRLF ++ B "two")
    (U "text/plain") (U "plain") (B "one" ++ ["010"%char] ++ B "two")
    (PyBytes (B "text/plain"))); vm_compute; reflexivity.
Defined.

(** X19. A text file whose bytes are not valid UTF-8 is not served: the
    [UnicodeDecodeError] of the read is not caught, and the connection is
    closed with nothing sent. *)
Theorem undecodable_text_file_raises (P : platform) (conn : connection)
    (request : str) (queue : list bytes) (m uri : str) (v : pyval) (h : gmap str str)
    (data : bytes) (mime_type sub_type : str) (e : exn) :
  receive (recv_queue conn) [] = (Ok request, queue) →
  parse_request request = Ok (PyStr m, PyStr uri, v, h) →
  lookup_path P (effective_path uri) = Some (RegularFile data) →
  guess_type P (effective_path uri) = Some mime_type →
  Py.split mime_type (U "/") = [U "text"; sub_type] →
  Py.utf8_decode data = Raise e →
  resolve_uri P uri = Raise UnicodeDecodeError
  ∧ handle_connection P conn
    = (Connection queue (sent conn) true, Some UnicodeDecodeError).
Proof.
  intros Hrecv Hparse Hfile Hguess Hsplit Hdecode.
  pose proof (utf8_decode_raises _ _ Hdecode) as ->.
  assert (resolve_uri P uri = Raise UnicodeDecodeError) as Hresolve.
  { rewrite (resolve_uri_text P uri data mime_type sub_type) by done.
    unfold Py.read_text. by rewrite Hdecode. }
  split; [exact Hresolve|].
  eapply handle_connection_raises; [exact Hrecv|].
  rewrite (respond_parsed P _ _ _ _ _ Hparse), Hresolve. reflexivity.
Qed.

Lemma undecodable_text_file_raises_witness :
  handle_connection demo (fresh [B "GET /latin1.txt HTTP/1.1"])
  = (Connection [] [] true, Some UnicodeDecodeError).
Proof.
  refine (proj2 (undecodable_text_file_raises demo
    (fresh [B "GET /latin1.txt HTTP/1.1"]) (U "GET /latin1.txt HTTP/1.1") []
    (U "GET") (U "/latin1.txt") (PyStr (U "HTTP/1.1")) ∅
    (B "caf" ++ [ascii_of_N 0xE9]) (U "text/plain") (U "plain")
    UnicodeDecodeError _ _ _ _ _ _)); vm_compute; reflexivity.
Defined.

(** X20. What [resolve_uri] returns has one of two shapes: content and media
    type both bytes, the type not empty, or [False] with a media type that
    counts as false.  So the handler never builds a 200 response from a
    sentinel. *)
Theorem resolve_uri_result_shapes (P : platform) (uri : str) (content mime : pyval) :
  resolve_uri P uri = Ok (content, mime) →
  (∃ bs mt, content = PyBytes bs ∧ mime = PyBytes mt ∧ mt ≠ [])
  ∨ (content = PyFalse ∧ truthy mime = false).
Proof.
  unfold resolve_uri.
  destruct (lookup_path P (effective_path uri)) as [[|data]|]; [| |done].
  - change (Py.utf8_encode (U "text/plain")) with (Ok (B "text/plain")).
    cbn [mbind result_bind].
    destruct (check_output P _) as [listing|]; [|done].
    intros [= <- <-]. left. by exists listing, (B "text/plain").
  - destruct (guess_type P (effective_path uri)) as [mime_type|].
    + case_bool_decide as Hne.
      * destruct (Py.unpack2 _) as [[base_type sub_type]|]; [|done].
        cbn [mbind result_bind].
        match goal with |- context [(?c ≫= _)] =>
          destruct c as [bs|]; [|done] end.
        cbn [mbind result_bind].
        destruct (Py.utf8_encode mime_type) as [mt|] eqn:Hmt; [|done].
        intros [= <- <-]. left. exists bs, mt.
        split; [done|]. split; [done|]. by eapply utf8_encode_nonempty.
      * intros [= <- <-]. right. split; [done|]. simpl.
        by case_bool_decide.
    + intros [= <- <-]. by right.
Qed.

Lemma resolve_uri_result_shapes_witness :
  (∃ bs mt, PyBytes (B "<html></html>") = PyBytes bs
            ∧ PyBytes (B "text/html") = PyBytes mt ∧ mt ≠ [])
  ∨ (PyBytes (B "<html></html>") = PyFalse ∧ truthy (PyBytes (B "text/html")) = false).
Proof.
  apply (resolve_uri_result_shapes demo (U "/a.html")). reflexivity.
Defined.

(** ** The path of a URI *)

(** X21. The path of every URI starts with [webroot/]: the join never
    drops the root, and the path is never absolute. *)
Theorem effective_path_starts_with_webroot (uri : str) :
  Py.startswith (effective_path uri) (U "webroot/") = true
  ∧ Py.startswith (effective_path uri) (U "/") = false.
Proof. rewrite effective_path_shape. by split. Qed.

Lemma lstrip_snoc_stripped {A} `{EqDecision A} (s chars : list A) (c : A) :
  c ∈ chars →
  Py.lstrip (s ++ [c]) chars
  = match Py.lstrip s chars with
    | [] => []
    | t => t ++ [c]
    end.
Proof.
  intros Hc. induction s as [|d rest IH]; simpl.
  - by rewrite bool_decide_eq_true_2.
  - by case_bool_decide.
Qed.

Lemma rstrip_snoc_stripped {A} `{EqDecision A} (s chars : list A) (c : A) :
  c ∈ chars → Py.rstrip (s ++ [c]) chars = Py.rstrip s chars.
Proof.
  intros Hc. unfold Py.rstrip. rewrite reverse_snoc. simpl.
  by rewrite bool_decide_eq_true_2.
Qed.

Lemma strip_snoc_stripped {A} `{EqDecision A} (s chars : list A) (c : A) :
  c ∈ chars → Py.strip (s ++ [c]) chars = Py.strip s chars.
Proof.
  intros Hc. unfold Py.strip. rewrite lstrip_snoc_stripped by done.
  destruct (Py.lstrip s chars) as [|d t] eqn:Hl; [done|].
  by rewrite rstrip_snoc_stripped.
Qed.

(** X22. Slashes at either end of a URI do not change its path: [/a/],
    [a] and [//a] name the same file. *)
Theorem effective_path_ignores_outer_slashes (uri : str) :
  effective_path (U "/" ++ uri) = effective_path uri
  ∧ effective_path (uri ++ U "/") = effective_path uri.
Proof.
  unfold effective_path. split.
  - reflexivity.
  - change (uri ++ U "/") with (uri ++ [Py.SLASH]).
    rewrite strip_snoc_stripped; [done|]. apply list_elem_of_here.
Qed.

Lemma effective_path_without_dotdot_witness :
  under_webroot (effective_path (U "/images/./sample_1.png")) = true.
Proof.
  apply (effective_path_without_dotdot (U "/images/./sample_1.png")).
  vm_compute. intros Hin.
  by repeat (apply elem_of_cons in Hin as [[=]|Hin]); apply elem_of_nil in Hin.
Defined.
